(** * DVR_Markers2YT_Chapters: the EDL-to-chapter-list transformation

    A shallow embedding of [DVChapterBot._format_chapters] (bot.py) together
    with the pieces of Python it relies on: list indexing with [IndexError],
    [range], the substring test [in], [re.search] for the two patterns of the
    source, f-string formatting and [str.join]; and of the [choices] table of
    [DatabaseManager] the function reads its two preferences from.

    A Python [str] is modelled by the [string] of its bytes in UTF-8, the
    encoding the file is read with. Joining, slicing at a match and the
    substring test give the same text on the bytes as on the characters.
    The class [\d] of [re] is every decimal digit of Unicode, so it takes
    one to four bytes; [.] (no DOTALL flag) is every character but the
    line feed, and before the ASCII text [ |D:] it can be read byte by
    byte. *)

From Stdlib Require Import String Ascii ZArith Lia.
From stdpp Require Import gmap strings list.

(* ===================================================================== *)
(** ** Python strings                                                     *)
(* ===================================================================== *)

Module PyStr.

(** The line feed, written [\n] in the source. *)
Definition LF : ascii := "010"%char.
Definition nl : string := String LF "".

(** [startswith p s]: [s.startswith(p)]. *)
Fixpoint startswith (p s : string) : bool :=
  match p, s with
  | EmptyString, _ => true
  | String a p', String b s' => if Ascii.eqb a b then startswith p' s' else false
  | String _ _, EmptyString => false
  end.

(** [str_in needle hay]: the substring test [needle in hay]. *)
Fixpoint str_in (needle hay : string) : bool :=
  if startswith needle hay then true
  else match hay with
       | EmptyString => false
       | String _ hay' => str_in needle hay'
       end.

(** [join sep xs]: [sep.join(xs)]. *)
Fixpoint join (sep : string) (xs : list string) : string :=
  match xs with
  | [] => ""
  | [x] => x
  | x :: rest => x +:+ sep +:+ join sep rest
  end.

(** [take n s]: the slice [s[:n]]. *)
Fixpoint take (n : nat) (s : string) : string :=
  match n, s with
  | S n', String a s' => String a (take n' s')
  | _, _ => ""
  end.

End PyStr.

(* ===================================================================== *)
(** ** Python's [re.search], for the constructs the two patterns use      *)
(* ===================================================================== *)

Module Re.
Import PyStr.

(** One-byte items: a literal (or escaped) ASCII character, and [.]. *)
Inductive cclass : Type :=
| CLit (a : ascii)
| CDot.

Definition accepts (c : cclass) (a : ascii) : bool :=
  match c with
  | CLit b => Ascii.eqb a b
  | CDot => negb (Ascii.eqb a LF)
  end.

(** The decimal digits of Unicode, category Nd (Unicode 14.0, the table of
    CPython 3.11), as runs of code points: what [\d] matches in a [str]. *)
Definition decimal_digits : list (N * N) :=
  [(48, 57); (1632, 1641); (1776, 1785); (1984, 1993); (2406, 2415);
   (2534, 2543); (2662, 2671); (2790, 2799); (2918, 2927); (3046, 3055);
   (3174, 3183); (3302, 3311); (3430, 3439); (3558, 3567); (3664, 3673);
   (3792, 3801); (3872, 3881); (4160, 4169); (4240, 4249); (6112, 6121);
   (6160, 6169); (6470, 6479); (6608, 6617); (6784, 6793); (6800, 6809);
   (6992, 7001); (7088, 7097); (7232, 7241); (7248, 7257); (42528, 42537);
   (43216, 43225); (43264, 43273); (43472, 43481); (43504, 43513);
   (43600, 43609); (44016, 44025); (65296, 65305); (66720, 66729);
   (68912, 68921); (69734, 69743); (69872, 69881); (69942, 69951);
   (70096, 70105); (70384, 70393); (70736, 70745); (70864, 70873);
   (71248, 71257); (71360, 71369); (71472, 71481); (71904, 71913);
   (72016, 72025); (72784, 72793); (73040, 73049); (73120, 73129);
   (92768, 92777); (92864, 92873); (93008, 93017); (120782, 120831);
   (123200, 123209); (123632, 123641); (125264, 125273);
   (130032, 130041)]%N.

Definition is_digit (cp : N) : bool :=
  existsb (λ run, (run.1 <=? cp)%N && (cp <=? run.2)%N) decimal_digits.

(** The payload of a continuation byte [10xxxxxx]. *)
Definition continuation (b : ascii) : option N :=
  let n := N_of_ascii b in
  if (128 <=? n)%N && (n <? 192)%N then Some (n - 128)%N else None.

(** [decode s]: the code point at the head of the UTF-8 text [s], and the
    text after it; nothing when [s] does not start with a well-formed
    character. *)
Definition decode (s : string) : option (N * string) :=
  match s with
  | EmptyString => None
  | String b0 s1 =>
      let n0 := N_of_ascii b0 in
      if (n0 <? 128)%N then Some (n0, s1)
      else if (n0 <? 192)%N then None
      else if (n0 <? 224)%N then
        match s1 with
        | String b1 s2 =>
            match continuation b1 with
            | Some c1 =>
                let cp := ((n0 - 192) * 64 + c1)%N in
                if (128 <=? cp)%N then Some (cp, s2) else None
            | None => None
            end
        | EmptyString => None
        end
      else if (n0 <? 240)%N then
        match s1 with
        | String b1 (String b2 s3) =>
            match continuation b1, continuation b2 with
            | Some c1, Some c2 =>
                let cp := ((n0 - 224) * 4096 + c1 * 64 + c2)%N in
                if (2048 <=? cp)%N && negb ((55296 <=? cp)%N && (cp <=? 57343)%N)
                then Some (cp, s3) else None
            | _, _ => None
            end
        | _ => None
        end
      else if (n0 <? 248)%N then
        match s1 with
        | String b1 (String b2 (String b3 s4)) =>
            match continuation b1, continuation b2, continuation b3 with
            | Some c1, Some c2, Some c3 =>
                let cp := ((n0 - 240) * 262144 + c1 * 4096 + c2 * 64 + c3)%N in
                if (65536 <=? cp)%N && (cp <=? 1114111)%N
                then Some (cp, s4) else None
            | _, _, _ => None
            end
        | _ => None
        end
      else None
  end.

(** [digit_prefix s]: what follows the decimal digit [s] starts with. *)
Definition digit_prefix (s : string) : option string :=
  match decode s with
  | Some (cp, rest) => if is_digit cp then Some rest else None
  | None => None
  end.

(** Patterns: a one-byte item, concatenation, the lazy star [c*?] of an
    item, a capturing group [( r )] (one group is enough here), the empty
    pattern, and [\d]. *)
Inductive regex : Type :=
| RChar (c : cclass)
| RSeq (r1 r2 : regex)
| RLazyStar (c : cclass)
| RGroup (r : regex)
| REmpty
| RDigit.

(** [r{n}] is [n] copies of [r] in a row. *)
Fixpoint rrepeat (n : nat) (r : regex) : regex :=
  match n with
  | 0 => REmpty
  | 1 => r
  | S n' => RSeq r (rrepeat n' r)
  end.

(** A literal text as a pattern. *)
Fixpoint rlit (s : string) : regex :=
  match s with
  | EmptyString => REmpty
  | String a EmptyString => RChar (CLit a)
  | String a s' => RSeq (RChar (CLit a)) (rlit s')
  end.

(** The lazy star tries the rest of the pattern first and takes one more
    character only when that fails. *)
Fixpoint lazy_star {R : Type} (c : cclass) (k : string → option R) (s : string)
  : option R :=
  match k s with
  | Some x => Some x
  | None =>
      match s with
      | String a s' => if accepts c a then lazy_star c k s' else None
      | EmptyString => None
      end
  end.

(** The backtracking matcher, anchored at the head of [s]; [g] is what
    group 1 holds so far and [k] is the rest of the pattern. *)
Fixpoint rmatch {R : Type} (r : regex) (s : string) (g : option string)
         (k : string → option string → option R) : option R :=
  match r with
  | REmpty => k s g
  | RChar c =>
      match s with
      | String a s' => if accepts c a then k s' g else None
      | EmptyString => None
      end
  | RSeq r1 r2 => rmatch r1 s g (λ s' g', rmatch r2 s' g' k)
  | RLazyStar c => lazy_star c (λ s', k s' g) s
  | RGroup r1 =>
      rmatch r1 s g
        (λ s' _, k s' (Some (take (String.length s - String.length s') s)))
  | RDigit =>
      match digit_prefix s with
      | Some s' => k s' g
      | None => None
      end
  end.

(** A match object: where the match starts (counted in bytes; the source
    does not read it), [group(0)] and [group(1)] ([None] when the pattern
    has no group that took part). *)
Record Match : Type := mkMatch {
  start : nat;
  group0 : string;
  group1 : option string
}.

(** What an f-string prints for a group. *)
Definition fmt_group (g : option string) : string :=
  match g with
  | Some s => s
  | None => "None"
  end.

Definition match_here (r : regex) (pos : nat) (s : string) : option Match :=
  rmatch r s None
    (λ rest g, Some (mkMatch pos (take (String.length s - String.length rest) s) g)).

(** [search_from r pos s]: the first position of [s], from the left, at
    which [r] matches; [pos] counts the characters already passed. *)
Fixpoint search_from (r : regex) (pos : nat) (s : string) : option Match :=
  match match_here r pos s with
  | Some m => Some m
  | None =>
      match s with
      | String _ s' => search_from r (S pos) s'
      | EmptyString => None
      end
  end.

(** [re.search(r, s)]. *)
Definition search (r : regex) (s : string) : option Match := search_from r 0 s.

(** [r"\d{2}:\d{2}:\d{2}"] *)
Definition time_re : regex :=
  RSeq (rrepeat 2 RDigit)
    (RSeq (RChar (CLit ":"))
       (RSeq (rrepeat 2 RDigit)
          (RSeq (RChar (CLit ":")) (rrepeat 2 RDigit)))).

(** [r"\|M:(.*?) \|D:"] *)
Definition name_re : regex :=
  RSeq (rlit "|M:") (RSeq (RGroup (RLazyStar CDot)) (rlit " |D:")).

(** The words a pattern denotes. *)
Inductive matches : regex → string → Prop :=
| matches_empty : matches REmpty ""
| matches_char c a : accepts c a = true → matches (RChar c) (String a "")
| matches_seq r1 r2 s1 s2 :
    matches r1 s1 → matches r2 s2 → matches (RSeq r1 r2) (s1 +:+ s2)
| matches_star_nil c : matches (RLazyStar c) ""
| matches_star_cons c a s :
    accepts c a = true → matches (RLazyStar c) s → matches (RLazyStar c) (String a s)
| matches_group r s : matches r s → matches (RGroup r) s
| matches_digit d : digit_prefix d = Some "" → matches RDigit d.

End Re.

(* ===================================================================== *)
(** ** Exceptions, and the [choices] table                                *)
(* ===================================================================== *)

Inductive exn : Type :=
| IndexError   (* list index out of range *)
| TypeError.   (* 'NoneType' object is not subscriptable *)

Inductive result (A : Type) : Type :=
| Ok (a : A)
| Raise (e : exn).
Arguments Ok {A} a.
Arguments Raise {A} e.

#[global] Instance result_ret : MRet result := λ A a, Ok a.
#[global] Instance result_bind : MBind result := λ A B f x,
  match x with
  | Ok a => f a
  | Raise e => Raise e
  end.
#[global] Instance result_fmap : FMap result := λ A B f x,
  match x with
  | Ok a => Ok (f a)
  | Raise e => Raise e
  end.

Module Db.

(** A row of [choices (user_id INTEGER PRIMARY KEY, m_color TEXT DEFAULT
    'Blue', c_separator TEXT DEFAULT '-')]. *)
Record Row : Type := mkRow {
  m_color : string;
  c_separator : string
}.

(** The table, keyed by [user_id]. *)
Abbreviation DatabaseManager := (gmap Z Row).

(** Code that uses the database: it may change the table and may raise. *)
Definition Bot (A : Type) : Type := DatabaseManager → result A * DatabaseManager.

#[global] Instance bot_ret : MRet Bot := λ A a db, (Ok a, db).
#[global] Instance bot_bind : MBind Bot := λ A B f x db,
  match x db with
  | (Ok a, db') => f a db'
  | (Raise e, db') => (Raise e, db')
  end.

(** [raise e], and code that does not touch the table. *)
Definition raise {A : Type} (e : exn) : Bot A := λ db, (Raise e, db).
Definition lift {A : Type} (x : result A) : Bot A := λ db, (x, db).

(** The column defaults. *)
Definition default_row : Row := mkRow "Blue" "-".

(** [INSERT OR IGNORE INTO choices (user_id) VALUES (?)] *)
Definition add_user (user_id : Z) : Bot unit :=
  λ db, (Ok tt, match db !! user_id with
                | Some _ => db
                | None => <[user_id := default_row]> db
                end).

(** [SELECT * FROM choices WHERE user_id = ?], [fetchone]: the row or [None]. *)
Definition get_choices (user_id : Z) : Bot (option Row) :=
  λ db, (Ok (db !! user_id), db).

(** [UPDATE choices SET m_color = ? WHERE user_id = ?] *)
Definition update_markers_color (user_id : Z) (c : string) : Bot unit :=
  λ db, (Ok tt, alter (λ r, mkRow c (c_separator r)) user_id db).

(** [UPDATE choices SET c_separator = ? WHERE user_id = ?] *)
Definition update_chapters_separator (user_id : Z) (sep : string) : Bot unit :=
  λ db, (Ok tt, alter (λ r, mkRow (m_color r) sep) user_id db).

(** [row[column]]: subscripting [None] raises [TypeError]. *)
Definition subscript (row : option Row) (column : Row → string) : Bot string :=
  match row with
  | Some r => mret (column r)
  | None => raise TypeError
  end.

End Db.

(* ===================================================================== *)
(** ** [_format_chapters]                                                 *)
(* ===================================================================== *)

Module Chapters.
Import PyStr Re Db.

(** [range(start, stop, step)] for a positive [step]. *)
Definition range (start stop step : nat) : list nat :=
  (λ k, start + k * step) <$> seq 0 ((stop - start + (step - 1)) / step).

(** [lines[i]] *)
Definition getitem (lines : list string) (i : nat) : result string :=
  match lines !! i with
  | Some l => Ok l
  | None => Raise IndexError
  end.

(** ['CAPITOLI\n--------------------'], the first element of [results]. *)
Definition header : string := "CAPITOLI" +:+ nl +:+ "--------------------".

(** [f'{t} {c_separator} {name}'] *)
Definition chapter_line (t c_separator name : string) : string :=
  t +:+ " " +:+ c_separator +:+ " " +:+ name.

(** The body of the loop, for one [i]. *)
Definition loop_body (m_color c_separator : string) (lines : list string)
           (results : list string) (i : nat) : result (list string) :=
  meta ← getitem lines (i + 1);
  if str_in ("C:ResolveColor" +:+ m_color) meta then
    line ← getitem lines i;
    let m_time := search time_re line in
    let m_name := search name_re meta in
    match m_time, m_name with
    | Some mt, Some mn =>
        mret (results ++ [chapter_line (group0 mt) c_separator (fmt_group (group1 mn))])
    | _, _ => mret results
    end
  else mret results.

(** [for i in idx: ...], stopping at the first exception. *)
Fixpoint for_loop (m_color c_separator : string) (lines : list string)
         (idx : list nat) (results : list string) : result (list string) :=
  match idx with
  | [] => Ok results
  | i :: idx' =>
      results' ← loop_body m_color c_separator lines results i;
      for_loop m_color c_separator lines idx' results'
  end.

(** The function from [n_lines = len(lines)] on. *)
Definition format_with (m_color c_separator : string) (lines : list string)
  : result string :=
  let n_lines := length lines in
  if n_lines <? 6 then Ok ""
  else
    results ← for_loop m_color c_separator lines (range 3 n_lines 3) [header];
    mret (if 1 <? length results then join nl results else "").

(** [_format_chapters(self, user_id, lines)]; [self.db] is the state. *)
Definition _format_chapters (user_id : Z) (lines : list string) : Bot string :=
  choices ← get_choices user_id;
  m_color ← subscript choices m_color;
  c_separator ← subscript choices c_separator;
  lift (format_with m_color c_separator lines).

End Chapters.

(* ===================================================================== *)
(** ** The vocabulary of the properties                                   *)
(* ===================================================================== *)

Module ReSpec.
Import PyStr Re.

(** [needle] occurs somewhere in [hay]. *)
Definition contains (needle hay : string) : Prop :=
  ∃ pre post, hay = pre +:+ needle +:+ post.

(** Every character of [s] passes [p]. *)
Fixpoint all_chars (p : ascii → bool) (s : string) : bool :=
  match s with
  | EmptyString => true
  | String a s' => p a && all_chars p s'
  end.

(** [text] has a word of [r] right after [pre]. *)
Definition occurs_at (r : regex) (text pre t : string) : Prop :=
  ∃ post, text = pre +:+ t +:+ post ∧ matches r t.

(** [t] is the leftmost word of [r] in [text] (for the one [pre] it starts
    after). *)
Definition first_occurrence (r : regex) (text t : string) : Prop :=
  ∃ pre, occurs_at r text pre t ∧
    ∀ pre' t', occurs_at r text pre' t' → String.length pre ≤ String.length pre'.

(** [lab] is a label of [text], right after [pre]. *)
Definition label_at (text pre lab : string) : Prop :=
  ∃ post, text = pre +:+ "|M:" +:+ lab +:+ " |D:" +:+ post ∧
          all_chars (accepts CDot) lab = true.

(** The label [re.search] captures: the leftmost [|M:], and from there the
    shortest text up to [ |D:]. *)
Definition first_label (text lab : string) : Prop :=
  ∃ pre, label_at text pre lab ∧
    ∀ pre' lab', label_at text pre' lab' →
      String.length pre < String.length pre' ∨
      (String.length pre = String.length pre' ∧
       String.length lab ≤ String.length lab').

(** The matcher decides membership, which settles it on a given text. *)
Definition full_match (r : regex) (t : string) : bool :=
  match rmatch r t None (λ rest _, if rest is "" then Some tt else None) with
  | Some _ => true
  | None => false
  end.

(** The UTF-8 form of a code point: one byte below 128, two below 2048,
    three below 65536, four above. *)
Definition encode (cp : N) : string :=
  if (cp <? 128)%N then String (ascii_of_N cp) ""
  else if (cp <? 2048)%N then
    String (ascii_of_N (192 + cp / 64))
      (String (ascii_of_N (128 + cp mod 64)) "")
  else if (cp <? 65536)%N then
    String (ascii_of_N (224 + cp / 64 / 64))
      (String (ascii_of_N (128 + (cp / 64) mod 64))
         (String (ascii_of_N (128 + cp mod 64)) ""))
  else
    String (ascii_of_N (240 + cp / 64 / 64 / 64))
      (String (ascii_of_N (128 + (cp / 64 / 64) mod 64))
         (String (ascii_of_N (128 + (cp / 64) mod 64))
            (String (ascii_of_N (128 + cp mod 64)) ""))).

(** No star inside: at a given place of a text such a pattern has at most
    one word. *)
Fixpoint star_free (r : regex) : bool :=
  match r with
  | RLazyStar _ => false
  | RSeq r1 r2 => star_free r1 && star_free r2
  | RGroup r1 => star_free r1
  | _ => true
  end.

End ReSpec.

Module ChaptersSpec.
Import PyStr Re Db Chapters.

(** The time and the label of a record, when it has the color and both
    searches succeed. *)
Definition record_fields (m_color line meta : string) : option (string * string) :=
  if str_in ("C:ResolveColor" +:+ m_color) meta then
    match search time_re line, search name_re meta with
    | Some mt, Some mn => Some (group0 mt, fmt_group (group1 mn))
    | _, _ => None
    end
  else None.

(** The same for the record at index [i], when both of its lines exist. *)
Definition fields_at (m_color : string) (lines : list string) (i : nat)
  : option (string * string) :=
  line ← lines !! i; meta ← lines !! (i + 1); record_fields m_color line meta.

(** The chapter line of a record kept. *)
Definition render_line (c_separator : string) (e : string * string) : string :=
  chapter_line e.1 c_separator e.2.

(** What the function joins: the header and one line per record kept. *)
Definition render (c_separator : string) (es : list (string * string)) : string :=
  match es with
  | [] => ""
  | _ => join nl (header :: (render_line c_separator <$> es))
  end.

(** The records kept, in order; the separator plays no part. *)
Definition extract_records (m_color : string) (lines : list string)
  : result (list (string * string)) :=
  let n_lines := length lines in
  if n_lines <? 6 then Ok []
  else if n_lines mod 3 =? 1 then Raise IndexError
  else Ok (omap (fields_at m_color lines) (range 3 n_lines 3)).

(** A table with one user, 7, holding the defaults ([Blue], [-]), as
    [function_setup] leaves it on a first message. *)
Definition db_default : gmap Z Row := (add_user 7 ∅).2.

(** The same user after choosing the color [c] and the separator [sep]. *)
Definition db_with (c sep : string) : gmap Z Row :=
  (update_chapters_separator 7 sep (update_markers_color 7 c db_default).2).2.

End ChaptersSpec.

Module OutputSpec.
Import PyStr Re ReSpec Chapters ChaptersSpec.

Definition colon_prefix (s : string) : option string :=
  match s with
  | String ":" s' => Some s'
  | _ => None
  end.

(** Two decimal digits, a colon, two decimal digits, a colon, two decimal
    digits, and nothing more. *)
Definition is_timestamp (t : string) : bool :=
  match
    s1 ← digit_prefix t; s2 ← digit_prefix s1; s3 ← colon_prefix s2;
    s4 ← digit_prefix s3; s5 ← digit_prefix s4; s6 ← colon_prefix s5;
    s7 ← digit_prefix s6; digit_prefix s7
  with
  | Some EmptyString => true
  | _ => false
  end.

(** What holds of the two fields of every chapter line: the time has the
    shape above, the label has no line feed and does not reach a [ |D:]. *)
Definition well_formed_fields (e : string * string) : Prop :=
  is_timestamp e.1 = true ∧
  all_chars (accepts CDot) e.2 = true ∧
  ¬ contains " |D:" e.2.

(** The record at index [i] of [lines] has the color [m_color], [t] is the
    first timestamp of its first line and [l] the first label of its
    second line. *)
Definition record_gives (m_color : string) (lines : list string) (i : nat)
           (t l : string) : Prop :=
  ∃ line meta,
    lines !! i = Some line ∧ lines !! (i + 1) = Some meta ∧
    contains ("C:ResolveColor" +:+ m_color) meta ∧
    first_occurrence time_re line t ∧ first_label meta l.

End OutputSpec.

(* ===================================================================== *)
(** ** The handlers around [_format_chapters]                             *)
(* ===================================================================== *)

(** What the handlers see of python-telegram-bot. A document carries, next
    to the name the sender gave it, what [get_file], [download_to_drive] and
    [readlines] deliver for it: the path of the local copy, and its lines,
    or nothing when the bytes are not UTF-8. *)
Module Telegram.

Record Document : Type := mkDocument {
  file_name : option string;
  download_path : string;
  download_lines : option (list string)
}.

Record Message : Type := mkMessage {
  chat_id : Z;
  message_text : option string;
  document : option Document
}.

Record CallbackQuery : Type := mkCallbackQuery {
  from_user : Z;
  cq_message : option Message;
  cq_data : option string
}.

Record Update : Type := mkUpdate {
  callback_query : option CallbackQuery;
  message : option Message;
  effective_message : option Message;
  effective_user : option Z
}.

(** [InlineKeyboardButton(text, callback_data=...)] *)
Record InlineKeyboardButton : Type := mkButton {
  button_text : string;
  callback_data : string
}.

Inductive Markup : Type :=
| ReplyKeyboardMarkup (keyboard : list (list string))
| InlineKeyboardMarkup (keyboard : list (list InlineKeyboardButton)).

(** The calls made to the Bot API, each taken to return. *)
Inductive ApiCall : Type :=
| answer
| reply_text (to : Message) (text : string) (reply_markup : Markup).

End Telegram.

Module Handlers.
Import PyStr Re Db Chapters Telegram.

(** The settings [Config] reads from the environment that the handlers
    below use. *)
Record Config : Type := mkConfig {
  M_COLORS : list string;
  MARKERS_COLOR_BUTTON : string;
  CHAPTERS_SEPARATOR_BUTTON : string;
  HELP_BUTTON : string;
  RAM_THRESHOLD : Z;
  ERROR_MESSAGE : string;
  RAM_FULL_MESSAGE : string;
  SELECT_MARKERS_COLOR_MESSAGE : string;
  EDL_FILE_ERROR_MESSAGE : string;
  UPLOAD_EDL_FILE_MESSAGE : string
}.

(** The exceptions of the handlers: those of [_format_chapters], a [None]
    where an object is expected, a file that is not UTF-8. *)
Inductive exception : Type :=
| Exn (e : exn)
| AttributeError
| UnicodeDecodeError.

Inductive outcome (A : Type) : Type :=
| Returned (a : A)
| Raised (e : exception).
Arguments Returned {A} a.
Arguments Raised {A} e.

(** What a handler returns: [None], a conversation state, or
    [ConversationHandler.END]. Both states of the class are [range(1)]. *)
Inductive handler_return : Type :=
| return_None
| return_range1
| return_END.

Definition CHANGE_MARKERS_COLOR : handler_return := return_range1.
Definition CHANGE_CHAPTERS_SEPARATOR : handler_return := return_range1.
Definition END : handler_return := return_END.

(** The state the handlers work on: the table, the API calls made so far,
    the files of the working directory, and the free memory in bytes as
    [psutil] reports it. *)
Record World : Type := mkWorld {
  db : gmap Z Row;
  sent : list ApiCall;
  disk : gset string;
  free_memory : Z
}.

Definition Handler (A : Type) : Type := World → outcome A * World.

#[global] Instance handler_ret : MRet Handler := λ A a w, (Returned a, w).
#[global] Instance handler_bind : MBind Handler := λ A B f x w,
  match x w with
  | (Returned a, w') => f a w'
  | (Raised e, w') => (Raised e, w')
  end.

Definition throw {A : Type} (e : exception) : Handler A := λ w, (Raised e, w).

(** Code of [DatabaseManager] and [_format_chapters], run on the table. *)
Definition from_bot {A : Type} (x : Bot A) : Handler A :=
  λ w, match x (db w) with
       | (Ok a, db') => (Returned a, mkWorld db' (sent w) (disk w) (free_memory w))
       | (Raise e, db') => (Raised (Exn e), mkWorld db' (sent w) (disk w) (free_memory w))
       end.

Definition from_result {A : Type} (x : result A) : Handler A :=
  from_bot (Db.lift x).

(** An API call. *)
Definition call (c : ApiCall) : Handler unit :=
  λ w, (Returned tt, mkWorld (db w) (sent w ++ [c]) (disk w) (free_memory w)).

(** [psutil.virtual_memory().free] *)
Definition virtual_memory_free : Handler Z := λ w, (Returned (free_memory w), w).

(** [x.attribute] where [x] may be [None]. *)
Definition attribute {A : Type} (x : option A) : Handler A :=
  match x with
  | Some a => mret a
  | None => throw AttributeError
  end.

(** [try: body finally: cleanup] *)
Definition try_finally {A : Type} (body : Handler A) (cleanup : Handler unit)
  : Handler A :=
  λ w, match body w with
       | (r, w') =>
           match cleanup w' with
           | (Returned _, w'') => (r, w'')
           | (Raised e, w'') => (Raised e, w'')
           end
       end.

Section WithConfig.

Variable config : Config.

(** [Path(name).suffix], as [pathlib] gives it. *)
Variable path_suffix : string → string.

(** The inline keyboard of [change_markers_color_command]: the rows of the
    list comprehension, then the row for an odd number of colors. *)
Definition color_button (c : string) : InlineKeyboardButton := mkButton c c.

Definition color_rows (colors : list string)
  : result (list (list InlineKeyboardButton)) :=
  mapM (λ i, a ← getitem colors i;
             b ← getitem colors (i + 1);
             mret [color_button a; color_button b])
       (range 0 (length colors) 2).

Definition inline_keyboard (colors : list string)
  : result (list (list InlineKeyboardButton)) :=
  rows ← color_rows colors;
  if negb (length colors mod 2 =? 0) then
    c ← getitem colors (length colors - 1);
    mret (rows ++ [[color_button c]])
  else mret rows.

Definition _create_reply_keyboard (user_id : Z) : Bot Markup :=
  choice ← get_choices user_id;
  m_color ← subscript choice m_color;
  c_separator ← subscript choice c_separator;
  mret (ReplyKeyboardMarkup
          [[MARKERS_COLOR_BUTTON config +:+ nl +:+ "[ " +:+ m_color +:+ " ]"];
           [CHAPTERS_SEPARATOR_BUTTON config +:+ nl +:+ "[ " +:+ c_separator +:+ " ]"];
           [HELP_BUTTON config]]).

(** [send_reply(update, text, **kwargs)], with [reply_markup] the one
    keyword the callers pass. A user id of 0 is false. *)
Definition send_reply (update : Update) (text : string)
           (reply_markup : option Markup) : Handler unit :=
  target ← match callback_query update with
           | Some query =>
               _ ← call answer;
               mret (cq_message query, from_user query)
           | None =>
               user_id ← attribute (effective_user update);
               mret (effective_message update, user_id)
           end;
  match target.1 with
  | Some target_message =>
      if negb (target.2 =? 0)%Z then
        reply_keyboard_markup ← from_bot (_create_reply_keyboard target.2);
        call (reply_text target_message text
                (default reply_keyboard_markup reply_markup))
      else mret tt
  | None => mret tt
  end.

(** [file.get_file()] and [download_to_drive()] leave the copy on disk. *)
Definition download_to_drive (file : Document) : Handler string :=
  λ w, (Returned (download_path file),
        mkWorld (db w) (sent w) ({[download_path file]} ∪ disk w) (free_memory w)).

(** [open(file_path, 'r', encoding='utf-8')] and [f.readlines()] *)
Definition readlines (file : Document) : Handler (list string) :=
  match download_lines file with
  | Some lines => mret lines
  | None => throw UnicodeDecodeError
  end.

(** [if file_path.exists(): file_path.unlink()] *)
Definition unlink_if_exists (file_path : string) : Handler unit :=
  λ w, (Returned tt, mkWorld (db w) (sent w) (disk w ∖ {[file_path]}) (free_memory w)).

Definition _process_edl_file (user_id : Z) (file : Document) : Handler string :=
  file_path ← download_to_drive file;
  try_finally
    (lines ← readlines file; from_bot (_format_chapters user_id lines))
    (unlink_if_exists file_path).

(** [psutil.virtual_memory().free / 1024 ** 2 < RAM_THRESHOLD]; the
    quotient is exact below 2^53 bytes, so this is the comparison of the
    integers. *)
Definition _free_memory_check (update : Update) : Handler bool :=
  user_id ← attribute (effective_user update);
  free ← virtual_memory_free;
  if (free <? RAM_THRESHOLD config * 1024 ^ 2)%Z then
    _ ← send_reply update (RAM_FULL_MESSAGE config) None;
    mret false
  else mret true.

(** [handle_errors]: any exception of the handler is answered with
    [ERROR_MESSAGE] and ends the conversation. *)
Definition handle_errors (func : Update → Handler handler_return)
  : Update → Handler handler_return :=
  λ update w,
    match func update w with
    | (Returned r, w') => (Returned r, w')
    | (Raised _, w') =>
        (_ ← send_reply update (ERROR_MESSAGE config) None; mret END) w'
    end.

(** [function_setup]: the user is added before the handler runs. Without a
    user the id is the text "N/A", which the INTEGER PRIMARY KEY refuses;
    [_execute] swallows that error and nothing is added. *)
Definition function_setup (func : Update → Handler handler_return)
  : Update → Handler handler_return :=
  λ update,
    _ ← match effective_user update with
        | Some user_id => from_bot (add_user user_id)
        | None => mret tt
        end;
    func update.

(** The body of [upload_file_command]. *)
Definition upload_file (update : Update) : Handler handler_return :=
  enough ← _free_memory_check update;
  if negb enough then mret return_None
  else
    msg ← attribute (message update);
    file ← attribute (document msg);
    name ← match file_name file with
            | Some name => mret name
            | None => throw (Exn TypeError)
            end;
    if String.eqb (path_suffix name) ".edl" then
      user_id ← attribute (effective_user update);
      result ← _process_edl_file user_id file;
      _ ← (if negb (String.eqb result "")
           then send_reply update result None
           else send_reply update (EDL_FILE_ERROR_MESSAGE config) None);
      mret return_None
    else
      _ ← send_reply update (UPLOAD_EDL_FILE_MESSAGE config) None;
      mret return_None.

Definition upload_file_command : Update → Handler handler_return :=
  handle_errors (function_setup upload_file).

(** The body of [change_markers_color_command]. *)
Definition change_markers_color (update : Update) : Handler handler_return :=
  keyboard ← from_result (inline_keyboard (M_COLORS config));
  _ ← send_reply update (SELECT_MARKERS_COLOR_MESSAGE config)
        (Some (InlineKeyboardMarkup keyboard));
  mret CHANGE_MARKERS_COLOR.

Definition change_markers_color_command : Update → Handler handler_return :=
  handle_errors (function_setup change_markers_color).

End WithConfig.

End Handlers.

Module HandlersSpec.
Import PyStr Re Db Chapters Telegram Handlers.

(** The row the comprehension builds at index [i]. *)
Definition row_at (colors : list string) (i : nat)
  : result (list InlineKeyboardButton) :=
  a ← getitem colors i; b ← getitem colors (i + 1);
  mret [color_button a; color_button b].

(** The colors two by two. *)
Fixpoint pairs (colors : list string) : list (list InlineKeyboardButton) :=
  match colors with
  | a :: b :: rest => [color_button a; color_button b] :: pairs rest
  | _ => []
  end.

(** The reply keyboard for a row of preferences. *)
Definition keyboard_of (config : Config) (row : Row) : Markup :=
  ReplyKeyboardMarkup
    [[MARKERS_COLOR_BUTTON config +:+ nl +:+ "[ " +:+ m_color row +:+ " ]"];
     [CHAPTERS_SEPARATOR_BUTTON config +:+ nl +:+ "[ " +:+ c_separator row +:+ " ]"];
     [HELP_BUTTON config]].

(** A message [msg] sent by the user [user_id]: no callback query, and the
    message is the effective message. *)
Definition message_update (user_id : Z) (msg : Message) : Update :=
  mkUpdate None (Some msg) (Some msg) (Some user_id).

(** The same without a sender, as for a channel post. *)
Definition anonymous_update (msg : Message) : Update :=
  mkUpdate None (Some msg) (Some msg) None.

(** What [_process_edl_file] hands back: the result of [_format_chapters]
    on the lines of the file, or the error of a file that is not UTF-8. *)
Definition parse_outcome (user_id : Z) (file : Document) (tbl : gmap Z Row)
  : outcome string :=
  match download_lines file with
  | Some lines =>
      match (_format_chapters user_id lines tbl).1 with
      | Ok out => Returned out
      | Raise e => Raised (Exn e)
      end
  | None => Raised UnicodeDecodeError
  end.

(** One more API call; the rest of the world as given. *)
Definition after_reply (w : World) (db' : gmap Z Row) (disk' : gset string)
           (to : Message) (text : string) (markup : Markup) : World :=
  mkWorld db' (sent w ++ [reply_text to text markup]) disk' (free_memory w).

(** Settings, a [pathlib]-like suffix for two names, and a world with no
    user, no call made, one file on disk and 8 GiB free, to try the handlers
    on. *)
Definition config_example : Config :=
  mkConfig ["Blue"; "Red"; "Green"; "Yellow"] "Markers color" "Chapters separator"
    "Help" 100 "Something went wrong" "Not enough memory" "Choose a color"
    "The file could not be parsed" "Send an .edl file".

Definition suffix_example (name : string) : string :=
  if String.eqb name "timeline.edl" then ".edl"
  else if String.eqb name "notes.txt" then ".txt"
  else "".

Definition world_example : World :=
  mkWorld ∅ [] {["bot.py"]} 8589934592.

End HandlersSpec.

(* ===================================================================== *)
(** ** Facts about strings                                                *)
(* ===================================================================== *)

Module PyStrFacts.
Import PyStr ReSpec.

Lemma sapp_nil_l (s : string) : "" +:+ s = s.
Proof. reflexivity. Qed.

Lemma sapp_cons (a : ascii) (s t : string) : String a s +:+ t = String a (s +:+ t).
Proof. reflexivity. Qed.

Lemma sapp_nil_r (s : string) : s +:+ "" = s.
Proof. induction s as [|a s IH]; [done|]. by rewrite sapp_cons, IH. Qed.

Lemma sapp_assoc (s t u : string) : (s +:+ t) +:+ u = s +:+ t +:+ u.
Proof. induction s as [|a s IH]; [done|]. by rewrite !sapp_cons, IH. Qed.

Lemma slength_app (s t : string) :
  String.length (s +:+ t) = String.length s + String.length t.
Proof. induction s as [|a s IH]; [done|]. rewrite sapp_cons. simpl. by rewrite IH. Qed.

Lemma take_app (t rest : string) :
  take (String.length (t +:+ rest) - String.length rest) (t +:+ rest) = t.
Proof.
  rewrite slength_app.
  replace (String.length t + String.length rest - String.length rest)
    with (String.length t) by lia.
  induction t as [|a t IH].
  - by destruct rest.
  - rewrite sapp_cons. simpl. by rewrite IH.
Qed.

Lemma startswith_spec (p s : string) :
  startswith p s = true ↔ ∃ rest, s = p +:+ rest.
Proof.
  revert s. induction p as [|a p IH]; intros s; simpl.
  - split; [eauto|done].
  - destruct s as [|b s].
    + split; [done|]. intros [rest Hr]. by rewrite sapp_cons in Hr.
    + destruct (Ascii.eqb_spec a b) as [->|Hne].
      * rewrite IH. split; intros [rest Hr]; exists rest.
        -- by rewrite sapp_cons, Hr.
        -- rewrite sapp_cons in Hr. by injection Hr.
      * split; [done|]. intros [rest Hr]. rewrite sapp_cons in Hr. congruence.
Qed.

Lemma startswith_app (p rest : string) : startswith p (p +:+ rest) = true.
Proof. apply startswith_spec. eauto. Qed.

(** [str_in] decides [contains]. *)
Lemma str_in_spec (needle hay : string) :
  str_in needle hay = true ↔ contains needle hay.
Proof.
  unfold contains. induction hay as [|b hay IH]; simpl.
  - destruct (startswith needle "") eqn:Hs.
    + split; [|done]. intros _. apply startswith_spec in Hs as [rest Hr].
      exists "", rest. by rewrite sapp_nil_l.
    + split; [done|]. intros ([|c pre] & post & Hp).
      * rewrite sapp_nil_l in Hp. rewrite Hp, startswith_app in Hs. done.
      * by rewrite sapp_cons in Hp.
  - destruct (startswith needle (String b hay)) eqn:Hs.
    + split; [|done]. intros _. apply startswith_spec in Hs as [rest Hr].
      exists "", rest. by rewrite sapp_nil_l.
    + rewrite IH. split.
      * intros (pre & post & ->). exists (String b pre), post. by rewrite sapp_cons.
      * intros ([|c pre] & post & Hp).
        -- rewrite sapp_nil_l in Hp. rewrite Hp, startswith_app in Hs. done.
        -- rewrite sapp_cons in Hp. injection Hp as -> ->. eauto.
Qed.

Lemma str_in_false (needle hay : string) :
  str_in needle hay = false ↔ ¬ contains needle hay.
Proof.
  rewrite <- str_in_spec. destruct (str_in needle hay); naive_solver.
Qed.

End PyStrFacts.

(* ===================================================================== *)
(** ** Facts about the matcher                                            *)
(* ===================================================================== *)

Module ReFacts.
Import PyStr PyStrFacts Re ReSpec.

Lemma lazy_star_unfold {R : Type} c (k : string → option R) s :
  lazy_star c k s =
    match k s with
    | Some x => Some x
    | None =>
        match s with
        | String a s' => if accepts c a then lazy_star c k s' else None
        | EmptyString => None
        end
    end.
Proof. by destruct s. Qed.

Lemma search_from_unfold r pos s :
  search_from r pos s =
    match match_here r pos s with
    | Some m => Some m
    | None =>
        match s with
        | String _ s' => search_from r (S pos) s'
        | EmptyString => None
        end
    end.
Proof. by destruct s. Qed.

Lemma matches_star c t :
  matches (RLazyStar c) t ↔ all_chars (accepts c) t = true.
Proof.
  split.
  - induction t as [|a t IH]; intros H; [done|].
    inversion H; subst. simpl. rewrite IH by done. by rewrite andb_true_r.
  - induction t as [|a t IH]; simpl; intros H; [constructor|].
    apply andb_true_iff in H as [Ha Ht]. constructor; auto.
Qed.

(** The lazy star stops at the shortest run the rest of the pattern accepts. *)
Lemma lazy_star_sound {R : Type} c (k : string → option R) s x :
  lazy_star c k s = Some x →
  ∃ t rest, s = t +:+ rest ∧ all_chars (accepts c) t = true ∧ k rest = Some x ∧
    ∀ t' rest', s = t' +:+ rest' → String.length t' < String.length t →
                k rest' = None.
Proof.
  induction s as [|a s IH]; rewrite lazy_star_unfold.
  - destruct (k "") eqn:Hk; [|done]. intros [= ->].
    exists "", "". repeat split; try done. simpl. lia.
  - destruct (k (String a s)) eqn:Hk.
    + intros [= ->]. exists "", (String a s). repeat split; try done. simpl. lia.
    + destruct (accepts c a) eqn:Ha; [|done]. intros Hs.
      destruct (IH Hs) as (t & rest & -> & Ht & Hr & Hmin).
      exists (String a t), rest. rewrite sapp_cons. repeat split; try done.
      { simpl. by rewrite Ha. }
      intros [|b t'] rest' Heq Hlen.
      * rewrite sapp_nil_l in Heq. by subst rest'.
      * rewrite sapp_cons in Heq. injection Heq as -> Heq.
        apply (Hmin t' rest' Heq). simpl in Hlen. lia.
Qed.

Lemma lazy_star_complete {R : Type} c (k : string → option R) t rest :
  all_chars (accepts c) t = true → is_Some (k rest) →
  is_Some (lazy_star c k (t +:+ rest)).
Proof.
  induction t as [|a t IH]; intros Ht Hk; rewrite lazy_star_unfold.
  - rewrite sapp_nil_l. destruct Hk as [x ->]. eauto.
  - rewrite sapp_cons. simpl in Ht. apply andb_true_iff in Ht as [Ha Ht].
    destruct (k (String a (t +:+ rest))); [eauto|].
    rewrite Ha. auto.
Qed.

(** *** One character of UTF-8 *)

Lemma decode_app d cp rest :
  decode d = Some (cp, "") → decode (d +:+ rest) = Some (cp, rest).
Proof.
  destruct d as [|b0 [|b1 [|b2 [|b3 [|b4 d]]]]];
    rewrite ?sapp_cons, ?sapp_nil_l; unfold decode;
    repeat case_match; intros; simplify_eq; done.
Qed.

Lemma decode_split s cp rest :
  decode s = Some (cp, rest) → ∃ d, s = d +:+ rest ∧ decode d = Some (cp, "").
Proof.
  destruct s as [|b0 s]; [done|]. intros H. unfold decode in H.
  repeat case_match; simplify_eq;
    match goal with
    | |- ∃ d, String ?a ?r = d +:+ ?r ∧ _ => exists (String a "")
    | |- ∃ d, String ?a (String ?b ?r) = d +:+ ?r ∧ _ =>
        exists (String a (String b ""))
    | |- ∃ d, String ?a (String ?b (String ?c ?r)) = d +:+ ?r ∧ _ =>
        exists (String a (String b (String c "")))
    | |- ∃ d, String ?a (String ?b (String ?c (String ?e ?r))) = d +:+ ?r ∧ _ =>
        exists (String a (String b (String c (String e ""))))
    end;
    (split; [done|]); unfold decode;
    repeat match goal with Hx : ?x = _ |- context [?x] => rewrite Hx end; done.
Qed.

Lemma digit_prefix_app d rest :
  digit_prefix d = Some "" → digit_prefix (d +:+ rest) = Some rest.
Proof.
  unfold digit_prefix. destruct (decode d) as [[cp r]|] eqn:Hd; [|done].
  destruct (is_digit cp) eqn:Hcp; [|done]. intros [= ->].
  by rewrite (decode_app _ _ _ Hd), Hcp.
Qed.

Lemma digit_prefix_split s rest :
  digit_prefix s = Some rest →
  ∃ d, s = d +:+ rest ∧ digit_prefix d = Some "".
Proof.
  unfold digit_prefix. destruct (decode s) as [[cp r]|] eqn:Hs; [|done].
  destruct (is_digit cp) eqn:Hcp; [|done]. intros [= ->].
  apply decode_split in Hs as (d & -> & Hd). exists d. split; [done|].
  by rewrite Hd, Hcp.
Qed.

Lemma sapp_inv_r (p p' x : string) : p +:+ x = p' +:+ x → p = p'.
Proof.
  intros H.
  assert (String.length p = String.length p') as Hl.
  { apply (f_equal String.length) in H. rewrite !slength_app in H. lia. }
  revert p' H Hl. induction p as [|a p IH]; intros [|a' p'] H Hl; try done.
  rewrite !sapp_cons in H. injection H as -> H. simpl in Hl.
  f_equal. apply IH; [done|lia].
Qed.

(** [decode] undoes [encode], and reads nothing else: it accepts the one
    encoding of each code point (no overlong form, no surrogate). *)

Lemma N_of_ascii_of_N n : (n < 256)%N → N_of_ascii (ascii_of_N n) = n.
Proof. apply N_ascii_embedding. Qed.

Lemma split64 (n : N) :
  ∃ q r, (n / 64 = q ∧ n mod 64 = r ∧ n = 64 * q + r ∧ r < 64)%N.
Proof.
  exists (n / 64)%N, (n mod 64)%N. repeat split.
  - by apply N.div_mod.
  - by apply N.mod_lt.
Qed.

Ltac decide_bounds :=
  repeat match goal with
         | |- context [N.ltb ?a ?b] => destruct (N.ltb_spec a b); try lia
         | |- context [N.leb ?a ?b] => destruct (N.leb_spec a b); try lia
         end.

Ltac decide_bounds_in H :=
  repeat first
    [ progress cbn [andb negb] in H
    | match type of H with
      | context [N.ltb ?a ?b] => destruct (N.ltb_spec a b)
      | context [N.leb ?a ?b] => destruct (N.leb_spec a b)
      end ].

Ltac name_byte b :=
  rewrite <- (ascii_N_embedding b); pose proof (N_ascii_bounded b);
  generalize dependent (N_of_ascii b); intros.

Lemma decode_encode cp rest :
  (cp < 1114112)%N → ¬ (55296 ≤ cp ≤ 57343)%N →
  decode (encode cp +:+ rest) = Some (cp, rest).
Proof.
  intros Hmax Hsur. unfold encode.
  destruct (split64 cp) as (q0 & r0 & -> & -> & E0 & L0).
  destruct (split64 q0) as (q1 & r1 & -> & -> & E1 & L1).
  destruct (split64 q1) as (q2 & r2 & -> & -> & E2 & L2).
  destruct (N.ltb_spec cp 128); [|destruct (N.ltb_spec cp 2048);
    [|destruct (N.ltb_spec cp 65536)]];
    rewrite ?sapp_cons, ?sapp_nil_l; unfold decode, continuation;
    repeat match goal with
           | |- context [N_of_ascii (ascii_of_N ?n)] =>
               rewrite (N_of_ascii_of_N n) by lia
           end;
    decide_bounds; cbn [andb negb]; decide_bounds; cbn [andb negb];
    try (do 2 f_equal; lia).
Qed.

Lemma encode_decode s cp rest :
  decode s = Some (cp, rest) → s = encode cp +:+ rest.
Proof.
  destruct s as [|b0 s]; [done|]. intros H. unfold decode, continuation in H.
  name_byte b0.
  repeat match type of H with
         | context [match ?s with EmptyString => _ | String _ _ => _ end] =>
             let b := fresh "b" in destruct s as [|b s]; [done|]; name_byte b
         | _ => progress decide_bounds_in H
         end; try done; simplify_eq.
  all: unfold encode;
    match goal with |- context [N.ltb ?e _] => remember e as c eqn:Hc end;
    destruct (split64 c) as (q0 & r0 & -> & -> & E0 & L0);
    destruct (split64 q0) as (q1 & r1 & -> & -> & E1 & L1);
    destruct (split64 q1) as (q2 & r2 & -> & -> & E2 & L2);
    decide_bounds; rewrite ?sapp_cons, ?sapp_nil_l; repeat f_equal; lia.
Qed.

Lemma is_digit_bounds cp :
  is_digit cp = true → (cp < 1114112)%N ∧ ¬ (55296 ≤ cp ≤ 57343)%N.
Proof.
  unfold is_digit. intros H. apply existsb_exists in H as ([lo hi] & Hin & H).
  apply andb_true_iff in H as [Hlo Hhi].
  apply N.leb_le in Hlo, Hhi. cbn [fst snd] in Hlo, Hhi.
  unfold decimal_digits in Hin.
  repeat (destruct Hin as [[= <- <-]|Hin]; [lia|]). destruct Hin.
Qed.

(** [\d] takes from a text the encoding of one decimal digit. *)
Lemma digit_prefix_spec s rest :
  digit_prefix s = Some rest ↔
  ∃ cp, is_digit cp = true ∧ s = encode cp +:+ rest.
Proof.
  unfold digit_prefix. split.
  - destruct (decode s) as [[cp r]|] eqn:Hs; [|done].
    destruct (is_digit cp) eqn:Hcp; [|done]. intros [= ->].
    exists cp. split; [done|]. by apply encode_decode.
  - intros (cp & Hcp & ->). destruct (is_digit_bounds _ Hcp) as [Hmax Hsur].
    by rewrite (decode_encode _ _ Hmax Hsur), Hcp.
Qed.

(** A text starts with at most one digit. *)
Lemma digit_prefix_unique d d' x x' :
  digit_prefix d = Some "" → digit_prefix d' = Some "" →
  d +:+ x = d' +:+ x' → d = d' ∧ x = x'.
Proof.
  intros Hd Hd' Heq.
  apply (digit_prefix_app _ x) in Hd. apply (digit_prefix_app _ x') in Hd'.
  rewrite Heq in Hd. assert (x = x') as <- by congruence.
  split; [|done]. by apply (sapp_inv_r _ _ x).
Qed.

(** What the matcher finds is a word of the pattern, at the head of [s]. *)
Lemma rmatch_sound {R : Type} r :
  ∀ s g (k : string → option string → option R) x,
    rmatch r s g k = Some x →
    ∃ t rest g', s = t +:+ rest ∧ matches r t ∧ k rest g' = Some x.
Proof.
  induction r as [c|r1 IH1 r2 IH2|c|r1 IH1| |]; intros s g k x H; simpl in H.
  - destruct s as [|a s]; [done|]. destruct (accepts c a) eqn:Ha; [|done].
    exists (String a ""), s, g. repeat split; try done. by constructor.
  - apply IH1 in H as (t1 & s1 & g1 & -> & Hm1 & H).
    apply IH2 in H as (t2 & s2 & g2 & -> & Hm2 & H).
    exists (t1 +:+ t2), s2, g2. rewrite sapp_assoc. repeat split; try done.
    by constructor.
  - apply lazy_star_sound in H as (t & rest & -> & Ht & Hk & _).
    exists t, rest, g. repeat split; try done. by apply matches_star.
  - apply IH1 in H as (t & rest & g' & -> & Hm & H).
    eexists t, rest, _. repeat split; [|exact H]. by constructor.
  - exists "", s, g. repeat split; try done. constructor.
  - destruct (digit_prefix s) as [s'|] eqn:Hd; [|done].
    apply digit_prefix_split in Hd as (d & -> & Hd).
    exists d, s', g. repeat split; try done. by constructor.
Qed.

(** Backtracking is exhaustive: when a word of the pattern heads the
    text and the rest of the pattern accepts what follows, the matcher
    finds a match. *)
Lemma rmatch_complete {R : Type} r t :
  matches r t →
  ∀ rest g (k : string → option string → option R),
    (∀ g', is_Some (k rest g')) → is_Some (rmatch r (t +:+ rest) g k).
Proof.
  induction 1 as [|c a Ha|r1 r2 s1 s2 _ IH1 _ IH2|c|c a s Ha Hs _|r s _ IH|d Hd];
    intros rest g k Hk; cbn [rmatch].
  - apply Hk.
  - rewrite sapp_cons, sapp_nil_l, Ha. apply Hk.
  - rewrite sapp_assoc. apply IH1. intros g'. by apply IH2.
  - apply (lazy_star_complete c _ ""); [done|apply Hk].
  - apply (lazy_star_complete c _ (String a s)); [|apply Hk].
    simpl. rewrite Ha. by apply matches_star.
  - apply IH. intros _. apply Hk.
  - rewrite (digit_prefix_app _ _ Hd). apply Hk.
Qed.

Lemma match_here_sound r pos s m :
  match_here r pos s = Some m →
  ∃ rest, s = group0 m +:+ rest ∧ start m = pos ∧ matches r (group0 m).
Proof.
  unfold match_here. intros H.
  apply rmatch_sound in H as (t & rest & g' & -> & Hm & [= <-]).
  simpl. rewrite take_app. eauto.
Qed.

Lemma match_here_complete r pos t rest :
  matches r t → is_Some (match_here r pos (t +:+ rest)).
Proof. intros Hm. apply rmatch_complete; [done|]. eauto. Qed.

(** [search] stops at the first position where the matcher succeeds, and
    no word of the pattern starts further left. *)
Lemma search_from_spec r : ∀ s pos m,
  search_from r pos s = Some m →
  ∃ pre tail, s = pre +:+ tail ∧
    match_here r (pos + String.length pre) tail = Some m ∧
    ∀ pre' t', occurs_at r s pre' t' → String.length pre ≤ String.length pre'.
Proof.
  induction s as [|a s IH]; intros pos m; rewrite search_from_unfold;
    destruct (match_here r pos _) as [m'|] eqn:Hh; try done.
  1,2: intros [= ->]; eexists "", _; rewrite sapp_nil_l, Nat.add_0_r;
    (split; [done|]); (split; [done|]); intros; simpl; lia.
  intros H. apply IH in H as (pre & tail & -> & Hm & Hmin).
  exists (String a pre), tail. split; [done|]. split.
  { simpl. by rewrite <- Nat.add_succ_comm. }
  intros [|b pre'] t' (post' & Heq & Hm').
  - rewrite sapp_nil_l in Heq. rewrite Heq in Hh.
    destruct (match_here_complete r pos t' post' Hm') as [? Hx]. congruence.
  - rewrite sapp_cons in Heq. injection Heq as -> Heq. simpl.
    apply le_n_S, (Hmin pre' t'). by exists post'.
Qed.

Lemma search_from_complete r : ∀ pre pos t post,
  matches r t → is_Some (search_from r pos (pre +:+ t +:+ post)).
Proof.
  induction pre as [|a pre IH]; intros pos t post Hm; rewrite search_from_unfold.
  - rewrite sapp_nil_l.
    destruct (match_here_complete r pos t post Hm) as [m ->]. eauto.
  - rewrite sapp_cons. destruct (match_here r pos _); [eauto|]. by apply IH.
Qed.

Lemma search_sound r s m :
  search r s = Some m → first_occurrence r s (group0 m).
Proof.
  intros H. apply search_from_spec in H as (pre & tail & -> & Hh & Hmin).
  apply match_here_sound in Hh as (rest & -> & _ & Hm).
  exists pre. split; [|done]. by exists rest.
Qed.

Lemma search_complete r s pre t :
  occurs_at r s pre t → is_Some (search r s).
Proof. intros (post & -> & Hm). by apply search_from_complete. Qed.

Lemma search_none r s :
  search r s = None ↔ ¬ ∃ pre t, occurs_at r s pre t.
Proof.
  split.
  - intros Hn (pre & t & Ho). apply search_complete in Ho as [m Hm]. congruence.
  - intros Hn. destruct (search r s) as [m|] eqn:Hs; [|done].
    apply search_sound in Hs as (pre & Ho & _). destruct Hn; eauto.
Qed.

Lemma full_match_spec r t : full_match r t = true ↔ matches r t.
Proof.
  unfold full_match. split.
  - destruct (rmatch r t None _) as [[]|] eqn:H; [|done]. intros _.
    apply rmatch_sound in H as (t0 & rest & g' & -> & Hm & Hk).
    destruct rest; [|done]. by rewrite sapp_nil_r.
  - intros Hm.
    destruct (rmatch_complete r t Hm "" None
                (λ rest _, if rest is "" then Some tt else None)) as [x Hx].
    { eauto. }
    rewrite sapp_nil_r in Hx. by rewrite Hx.
Qed.

(** *** The two patterns of the source *)

Lemma rmatch_rlit {R : Type} w : ∀ s g (k : string → option string → option R) x,
  rmatch (rlit w) s g k = Some x ↔ ∃ rest, s = w +:+ rest ∧ k rest g = Some x.
Proof.
  induction w as [|a w IH]; intros s g k x.
  - cbn. split; [eauto|]. by intros (rest & -> & H).
  - assert (Hhead : ∀ k' : string → option R,
              (match s with
               | String b s' => if accepts (CLit a) b then k' s' else None
               | EmptyString => None
               end = Some x) ↔ ∃ s', s = String a s' ∧ k' s' = Some x).
    { intros k'. destruct s as [|b s'].
      - split; [done|]. by intros (s' & Hs & _).
      - cbn. destruct (Ascii.eqb_spec b a) as [->|Hne].
        + split; [eauto|]. by intros (s'' & [= ->] & Hk).
        + split; [done|]. intros (s'' & [= ? ?] & _). done. }
    destruct w as [|a' w].
    + cbn [rlit rmatch]. by rewrite Hhead.
    + change (rlit (String a (String a' w)))
        with (RSeq (RChar (CLit a)) (rlit (String a' w))).
      cbn [rmatch]. rewrite Hhead. split.
      * intros (s' & -> & H). apply IH in H as (rest & -> & H). eauto.
      * intros (rest & -> & H). exists (String a' w +:+ rest). split; [done|].
        apply IH. eauto.
Qed.

Lemma matches_rlit w t : matches (rlit w) t ↔ t = w.
Proof.
  rewrite <- full_match_spec. unfold full_match.
  destruct (rmatch (rlit w) t None _) as [[]|] eqn:H.
  - apply rmatch_rlit in H as (rest & -> & H). destruct rest; [|done].
    by rewrite sapp_nil_r.
  - split; [done|]. intros ->.
    assert (rmatch (rlit w) w None
              (λ rest _, if rest is "" then Some tt else None) = Some tt) as Hx.
    { apply rmatch_rlit. exists "". by rewrite sapp_nil_r. }
    congruence.
Qed.

(** The words of [\|M:(.*?) \|D:]. *)
Lemma matches_name_re w :
  matches name_re w ↔
  ∃ lab, w = "|M:" +:+ lab +:+ " |D:" ∧ all_chars (accepts CDot) lab = true.
Proof.
  unfold name_re. split.
  - intros H. inversion H as [| |? ? s1 s23 H1 H23| | | |]; subst.
    inversion H23 as [| |? ? s2 s3 H2 H3| | | |]; subst.
    inversion H2; subst.
    apply (matches_rlit "|M:") in H1 as ->.
    apply (matches_rlit " |D:") in H3 as ->.
    exists s2. split; [done|]. by apply matches_star.
  - intros (lab & -> & Hl). constructor; [by apply matches_rlit|].
    constructor; [|by apply matches_rlit]. constructor. by apply matches_star.
Qed.

Lemma label_at_occurs text pre lab :
  label_at text pre lab → occurs_at name_re text pre ("|M:" +:+ lab +:+ " |D:").
Proof.
  intros (post & -> & Hl). exists post. split.
  - by rewrite !sapp_assoc.
  - apply matches_name_re. eauto.
Qed.

Lemma sapp_inv_length (p p' x x' : string) :
  p +:+ x = p' +:+ x' → String.length p = String.length p' → p = p' ∧ x = x'.
Proof.
  revert p'. induction p as [|a p IH]; intros [|a' p'] H Hl; try done.
  rewrite !sapp_cons in H. injection H as -> H. simpl in Hl.
  destruct (IH p' H) as [-> ->]; [lia|done].
Qed.

Lemma match_here_name pos s m :
  match_here name_re pos s = Some m →
  ∃ lab post, s = "|M:" +:+ lab +:+ " |D:" +:+ post ∧
    all_chars (accepts CDot) lab = true ∧
    m = mkMatch pos ("|M:" +:+ lab +:+ " |D:") (Some lab) ∧
    ∀ lab' post', s = "|M:" +:+ lab' +:+ " |D:" +:+ post' →
                  String.length lab ≤ String.length lab'.
Proof.
  unfold match_here, name_re. cbn [rmatch]. intros H.
  apply rmatch_rlit in H as (s1 & Hs & H).
  apply lazy_star_sound in H as (lab & rest & -> & Hl & H & Hmin).
  apply rmatch_rlit in H as (post & -> & [= <-]).
  exists lab, post. split; [done|]. split; [done|]. split.
  - rewrite take_app. f_equal. subst s.
    rewrite <- (sapp_assoc lab), <- (sapp_assoc "|M:"). apply take_app.
  - intros lab' post' Hs'. subst s. apply (inj (String.app "|M:")) in Hs'.
    destruct (decide (String.length lab' < String.length lab)) as [Hlt|]; [|lia].
    specialize (Hmin lab' _ Hs' Hlt).
    match type of Hmin with ?lhs = None =>
      assert (is_Some lhs) as [? Hx]; [|congruence] end.
    eexists. apply rmatch_rlit. eauto.
Qed.

Lemma search_name_spec s m :
  search name_re s = Some m →
  ∃ lab, group1 m = Some lab ∧ group0 m = "|M:" +:+ lab +:+ " |D:" ∧
         first_label s lab.
Proof.
  intros H. apply search_from_spec in H as (pre & tail & -> & Hh & Hleft).
  apply match_here_name in Hh as (lab & post & -> & Hl & -> & Hshort).
  exists lab. split; [done|]. split; [done|]. exists pre. split; [by exists post|].
  intros pre' lab' Hat.
  destruct (decide (String.length pre < String.length pre')) as [|Hge]; [by left|].
  right. pose proof (Hleft _ _ (label_at_occurs _ _ _ Hat)) as Hle.
  assert (String.length pre = String.length pre') as Heq by lia.
  split; [done|]. destruct Hat as (post' & Hs & _).
  apply sapp_inv_length in Hs as [_ Hs]; [|done]. by apply (Hshort lab' post').
Qed.

(** *** Uniqueness of what [search] returns *)

(** A pattern without a star has one word at most at the head of a text. *)
Lemma matches_unambiguous r t :
  matches r t → star_free r = true →
  ∀ t' x x', matches r t' → t +:+ x = t' +:+ x' → t = t' ∧ x = x'.
Proof.
  induction 1 as [|c a Ha|r1 r2 s1 s2 _ IH1 _ IH2|c|c a s Ha Hs _|r s _ IH|d Hd];
    intros Hf t' x x' Hm' Heq; cbn in Hf; try done.
  - inversion Hm'; subst. by rewrite !sapp_nil_l in Heq.
  - inversion Hm'; subst. rewrite !sapp_cons, !sapp_nil_l in Heq. by simplify_eq.
  - apply andb_true_iff in Hf as [Hf1 Hf2]. inversion Hm'; subst.
    rewrite !sapp_assoc in Heq.
    destruct (IH1 Hf1 _ _ _ ltac:(eassumption) Heq) as [<- Heq2].
    by destruct (IH2 Hf2 _ _ _ ltac:(eassumption) Heq2) as [<- <-].
  - inversion Hm'; subst. by apply IH.
  - inversion Hm'; subst. by apply digit_prefix_unique.
Qed.

Lemma first_occurrence_unique r text t t' :
  star_free r = true →
  first_occurrence r text t → first_occurrence r text t' → t = t'.
Proof.
  intros Hf (pre & Ho & Hmin) (pre' & Ho' & Hmin').
  pose proof (Hmin _ _ Ho'). pose proof (Hmin' _ _ Ho).
  destruct Ho as (post & -> & Hm), Ho' as (post' & Heq & Hm').
  apply sapp_inv_length in Heq as [_ Heq]; [|lia].
  by destruct (matches_unambiguous _ _ Hm Hf _ _ _ Hm' Heq).
Qed.

Lemma first_label_unique text lab lab' :
  first_label text lab → first_label text lab' → lab = lab'.
Proof.
  intros (pre & Ha & Hmin) (pre' & Ha' & Hmin').
  pose proof (Hmin _ _ Ha'). pose proof (Hmin' _ _ Ha).
  destruct Ha as (post & -> & _), Ha' as (post' & Heq & _).
  apply sapp_inv_length in Heq as [_ Heq]; [|lia].
  apply (inj (String.app "|M:")) in Heq.
  apply sapp_inv_length in Heq as [Heq _]; [done|lia].
Qed.

(** The first timestamp of a line is what [search] returns for the time
    pattern. *)
Lemma search_time_first line time :
  first_occurrence time_re line time →
  ∃ mt, search time_re line = Some mt ∧ group0 mt = time.
Proof.
  intros Hf. destruct Hf as (pre & Ho & Hmin).
  destruct (search_complete _ _ _ _ Ho) as [mt Hs]. exists mt. split; [done|].
  apply (first_occurrence_unique time_re line); [done|by apply search_sound|].
  by exists pre.
Qed.

(** The first label of a line is what [search] captures for the name
    pattern. *)
Lemma search_name_first meta label :
  first_label meta label →
  ∃ mn, search name_re meta = Some mn ∧ group1 mn = Some label.
Proof.
  intros Hf. pose proof Hf as (pre & Ha & _).
  destruct (search_complete _ _ _ _ (label_at_occurs _ _ _ Ha)) as [mn Hs].
  exists mn. split; [done|].
  apply search_name_spec in Hs as (lab & -> & _ & Hf'). f_equal.
  by apply (first_label_unique meta).
Qed.

Lemma first_label_search meta mn label :
  search name_re meta = Some mn → group1 mn = Some label → first_label meta label.
Proof.
  intros Hs Hg. apply search_name_spec in Hs as (lab & Hg' & _ & Hf). congruence.
Qed.

(** Where the pattern occurs there is a first occurrence, and where a label
    occurs there is a first label. *)
Lemma first_occurrence_exists r text pre t :
  occurs_at r text pre t → ∃ t1, first_occurrence r text t1.
Proof.
  intros Ho. destruct (search_complete _ _ _ _ Ho) as [m Hs].
  exists (group0 m). by apply search_sound.
Qed.

Lemma first_label_exists text pre w :
  occurs_at name_re text pre w → ∃ label, first_label text label.
Proof.
  intros Ho. destruct (search_complete _ _ _ _ Ho) as [m Hs].
  apply search_name_spec in Hs as (lab & _ & _ & Hf). eauto.
Qed.

End ReFacts.

(* ===================================================================== *)
(** ** Facts about [_format_chapters]                                     *)
(* ===================================================================== *)

Module ChaptersFacts.
Import PyStr PyStrFacts Re ReSpec ReFacts Db Chapters ChaptersSpec.

(** *** The indices of the loop *)

Lemma elem_of_range3 (n i : nat) :
  i ∈ range 3 n 3 ↔ 3 ≤ i ∧ i < n ∧ i mod 3 = 0.
Proof.
  unfold range. rewrite list_elem_of_fmap. split.
  - intros (k & -> & Hk). apply elem_of_seq in Hk.
    change (3 - 1) with 2 in Hk.
    assert ((3 + k * 3) mod 3 = 0) by (rewrite Nat.Div0.mod_add; done).
    pose proof (Nat.Div0.mul_div_le (n - 3 + 2) 3). lia.
  - intros (H3 & Hn & Hm). exists ((i - 3) / 3).
    pose proof (Nat.div_mod_eq i 3) as Hi.
    assert ((i - 3) / 3 = i / 3 - 1) as Hq.
    { replace i with (3 + (i / 3 - 1) * 3) at 1 by lia.
      replace (3 + (i / 3 - 1) * 3 - 3) with ((i / 3 - 1) * 3) by lia.
      by rewrite Nat.div_mul. }
    split; [lia|]. apply elem_of_seq. split; [lia|]. rewrite Hq.
    change (3 - 1) with 2.
    enough (i / 3 ≤ (n - 3 + 2) / 3) by lia.
    apply Nat.div_le_lower_bound; lia.
Qed.

Lemma omap_ext_in {A B : Type} (f g : A → option B) (l : list A) :
  (∀ x, x ∈ l → f x = g x) → omap f l = omap g l.
Proof.
  induction l as [|x l IH]; intros H; [done|]. cbn.
  rewrite (H x) by left. rewrite IH; [done|]. intros y Hy. apply H. by right.
Qed.

(** *** The stored preferences *)

Lemma _format_chapters_row (db : gmap Z Row) user_id c sep lines :
  db !! user_id = Some (mkRow c sep) →
  _format_chapters user_id lines db = (format_with c sep lines, db).
Proof.
  intros Hrow. unfold _format_chapters, get_choices, mbind, bot_bind.
  by rewrite Hrow.
Qed.

Lemma _format_chapters_no_row (db : gmap Z Row) user_id lines :
  db !! user_id = None →
  _format_chapters user_id lines db = (Raise TypeError, db).
Proof.
  intros Hrow. unfold _format_chapters, get_choices, mbind, bot_bind.
  by rewrite Hrow.
Qed.

(** *** One record *)

Lemma loop_body_ok c sep lines results i line meta :
  lines !! i = Some line → lines !! (i + 1) = Some meta →
  loop_body c sep lines results i =
    Ok (results ++ option_list (render_line sep <$> record_fields c line meta)).
Proof.
  intros Hl Hm. unfold loop_body, getitem, record_fields. rewrite Hm. cbn.
  destruct (str_in _ meta); cbn; [|by rewrite app_nil_r].
  rewrite Hl. cbn.
  destruct (search time_re line), (search name_re meta); cbn;
    by rewrite ?app_nil_r.
Qed.

Lemma loop_body_raise c sep lines results i :
  length lines ≤ i + 1 → loop_body c sep lines results i = Raise IndexError.
Proof.
  intros Hi. unfold loop_body, getitem. by rewrite (lookup_ge_None_2 lines (i + 1)).
Qed.

(** *** The loop *)

Lemma for_loop_ok c sep lines : ∀ idx results,
  (∀ i, i ∈ idx → i + 1 < length lines) →
  for_loop c sep lines idx results =
    Ok (results ++ (render_line sep <$> omap (fields_at c lines) idx)).
Proof.
  induction idx as [|i idx IH]; intros results Hin; cbn [for_loop].
  - by rewrite app_nil_r.
  - assert (i + 1 < length lines) as Hi by (apply Hin; left).
    destruct (lookup_lt_is_Some_2 lines i) as [line Hl]; [lia|].
    destruct (lookup_lt_is_Some_2 lines (i + 1)) as [meta Hm]; [lia|].
    rewrite (loop_body_ok _ _ _ _ _ line meta) by done. cbn.
    rewrite IH by (intros j Hj; apply Hin; by right).
    unfold fields_at at 2. rewrite Hl, Hm. cbn.
    destruct (record_fields c line meta); cbn; by rewrite <- ?app_assoc.
Qed.

Lemma for_loop_raise c sep lines : ∀ idx results i,
  i ∈ idx → length lines ≤ i + 1 →
  for_loop c sep lines idx results = Raise IndexError.
Proof.
  induction idx as [|j idx IH]; intros results i Hin Hi; [by inversion Hin|].
  cbn [for_loop].
  destruct (decide (j + 1 < length lines)) as [Hj|Hj].
  - destruct (lookup_lt_is_Some_2 lines j) as [line Hl]; [lia|].
    destruct (lookup_lt_is_Some_2 lines (j + 1)) as [meta Hm]; [lia|].
    rewrite (loop_body_ok _ _ _ _ _ line meta) by done. cbn.
    apply (IH _ i); [|done]. apply elem_of_cons in Hin as [->|]; [lia|done].
  - rewrite loop_body_raise by lia. done.
Qed.

(** *** The whole function *)

Lemma format_with_short c sep lines :
  length lines < 6 → format_with c sep lines = Ok "".
Proof.
  intros Hn. unfold format_with.
  by destruct (Nat.ltb_spec (length lines) 6); [|lia].
Qed.

Lemma format_with_returns c sep lines :
  6 ≤ length lines → length lines mod 3 ≠ 1 →
  format_with c sep lines =
    Ok (render sep (omap (fields_at c lines) (range 3 (length lines) 3))).
Proof.
  intros Hn Hmod. unfold format_with.
  destruct (Nat.ltb_spec (length lines) 6); [lia|].
  rewrite for_loop_ok.
  - cbn. destruct (omap _ _); done.
  - intros i (H3 & Hi & Hm)%elem_of_range3.
    destruct (decide (i + 1 = length lines)) as [Heq|]; [|lia].
    rewrite <- Heq in Hmod. destruct Hmod.
    rewrite <- Nat.Div0.add_mod_idemp_l, Hm. done.
Qed.

Lemma format_with_raises c sep lines :
  6 ≤ length lines → length lines mod 3 = 1 →
  format_with c sep lines = Raise IndexError.
Proof.
  intros Hn Hmod. unfold format_with.
  destruct (Nat.ltb_spec (length lines) 6); [lia|].
  rewrite (for_loop_raise _ _ _ _ _ (length lines - 1)); [done| |lia].
  apply elem_of_range3.
  pose proof (Nat.div_mod_eq (length lines) 3) as Hd.
  assert ((length lines - 1) mod 3 = 0) as Hz.
  { replace (length lines - 1) with (0 + (length lines / 3) * 3) by lia.
    by rewrite Nat.Div0.mod_add. }
  lia.
Qed.

Lemma format_with_extract c sep lines :
  format_with c sep lines = render sep <$> extract_records c lines.
Proof.
  unfold extract_records.
  destruct (Nat.ltb_spec (length lines) 6) as [Hn|Hn].
  - by rewrite format_with_short.
  - destruct (Nat.eqb_spec (length lines mod 3) 1) as [Hm|Hm].
    + by rewrite format_with_raises.
    + by rewrite format_with_returns.
Qed.

(** *** What a record gives *)

Lemma record_fields_first c line meta time label :
  contains ("C:ResolveColor" +:+ c) meta →
  first_occurrence time_re line time → first_label meta label →
  record_fields c line meta = Some (time, label).
Proof.
  intros Hc Ht Hl. unfold record_fields.
  apply str_in_spec in Hc as ->.
  apply search_time_first in Ht as (mt & -> & <-).
  by apply search_name_first in Hl as (mn & -> & ->).
Qed.

Lemma record_fields_other_color c line meta :
  ¬ contains ("C:ResolveColor" +:+ c) meta → record_fields c line meta = None.
Proof. intros Hc. unfold record_fields. by apply str_in_false in Hc as ->. Qed.

Lemma record_fields_no_time c line meta :
  search time_re line = None → record_fields c line meta = None.
Proof. intros Hs. unfold record_fields. rewrite Hs. by destruct (str_in _ _). Qed.

Lemma record_fields_no_name c line meta :
  search name_re meta = None → record_fields c line meta = None.
Proof.
  intros Hs. unfold record_fields. rewrite Hs.
  by destruct (str_in _ _), (search time_re line).
Qed.

(** A record that lacks the timestamp or the label adds nothing, raises
    nothing, and the loop goes on with the indices that follow. *)
Lemma malformed_record_skipped c sep lines idx results i line meta :
  lines !! i = Some line → lines !! (i + 1) = Some meta →
  search time_re line = None ∨ search name_re meta = None →
  loop_body c sep lines results i = Ok results ∧
  for_loop c sep lines (i :: idx) results = for_loop c sep lines idx results.
Proof.
  intros Hl Hm Hbad.
  assert (loop_body c sep lines results i = Ok results) as Hbody.
  { rewrite (loop_body_ok _ _ _ _ _ line meta) by done.
    destruct Hbad as [Hbad|Hbad].
    - rewrite (record_fields_no_time _ _ _ Hbad). cbn. by rewrite app_nil_r.
    - rewrite (record_fields_no_name _ _ _ Hbad). cbn. by rewrite app_nil_r. }
  split; [done|]. cbn [for_loop]. by rewrite Hbody.
Qed.

(** A record with the color, a timestamp and a label adds its line. *)
Lemma matching_record_appended c sep lines results i line meta time label :
  lines !! i = Some line → lines !! (i + 1) = Some meta →
  contains ("C:ResolveColor" +:+ c) meta →
  first_occurrence time_re line time → first_label meta label →
  loop_body c sep lines results i = Ok (results ++ [chapter_line time sep label]).
Proof.
  intros Hl Hm Hc Ht Hlab. rewrite (loop_body_ok _ _ _ _ _ line meta) by done.
  by rewrite (record_fields_first _ _ _ time label).
Qed.

(** *** On the lengths the loop gets through *)

(** The output holds a line for exactly the records that have the color
    and both fields, in the order of the file. *)
Lemma kept_records c sep lines :
  6 ≤ length lines → length lines mod 3 ≠ 1 →
  ∃ es, format_with c sep lines = Ok (render sep es) ∧
    ∀ e, e ∈ es ↔ ∃ i, i ∈ range 3 (length lines) 3 ∧ fields_at c lines i = Some e.
Proof.
  intros Hn Hmod. eexists. split; [by apply format_with_returns|].
  intros e. by rewrite list_elem_of_omap.
Qed.

(** With no record kept the result is the empty string, not the header. *)
Lemma no_record_kept_empty c sep lines :
  6 ≤ length lines → length lines mod 3 ≠ 1 →
  (∀ i, i ∈ range 3 (length lines) 3 → fields_at c lines i = None) →
  format_with c sep lines = Ok "".
Proof.
  intros Hn Hmod Hnone. rewrite format_with_returns by done.
  replace (omap _ _) with (@nil (string * string)); [done|].
  symmetry. induction (range 3 (length lines) 3) as [|i idx IH]; [done|].
  cbn. rewrite Hnone by left. apply IH. intros j Hj. apply Hnone. by right.
Qed.

End ChaptersFacts.

(* ===================================================================== *)
(** ** The properties of the chapter extractor                           *)
(* ===================================================================== *)

Import PyStr PyStrFacts Re ReSpec ReFacts Db Chapters ChaptersSpec ChaptersFacts.

(** C3: with fewer than six lines the function returns the empty string,
    whatever the lines, the marker color and the separator are. *)
Theorem short_input_returns_empty
    (db : gmap Z Row) (user_id : Z) (m_color c_separator : string)
    (lines : list string) :
  db !! user_id = Some (mkRow m_color c_separator) →
  length lines < 6 →
  _format_chapters user_id lines db = (Ok "", db).
Proof.
  intros Hrow Hn. rewrite (_format_chapters_row _ _ _ _ _ Hrow).
  by rewrite format_with_short.
Qed.

Lemma short_input_returns_empty_witness :
  db_default !! 7%Z = Some (mkRow "Blue" "-") ∧
  length ["TITLE: Timeline 1"; "FCM: NON-DROP FRAME"; ""; "00:00:01:00";
          " |C:ResolveColorBlue |M:Intro |D:1"] < 6 ∧
  _format_chapters 7 ["TITLE: Timeline 1"; "FCM: NON-DROP FRAME"; ""; "00:00:01:00";
                      " |C:ResolveColorBlue |M:Intro |D:1"] db_default
    = (Ok "", db_default).
Proof.
  split; [reflexivity|]. split; [simpl; lia|].
  apply (short_input_returns_empty _ _ "Blue" "-"); [reflexivity|simpl; lia].
Defined.

(** C1: the access to line [i+1] is not always in bounds. With six lines or
    more and a length congruent to 1 modulo 3, the last index of the stride
    is the last line, [lines[i+1]] is out of range and the function raises
    [IndexError] instead of returning a string. *)
Theorem stride_reaches_last_line_raises
    (db : gmap Z Row) (user_id : Z) (m_color c_separator : string)
    (lines : list string) :
  db !! user_id = Some (mkRow m_color c_separator) →
  6 ≤ length lines →
  length lines mod 3 = 1 →
  _format_chapters user_id lines db = (Raise IndexError, db).
Proof.
  intros Hrow Hn Hmod. rewrite (_format_chapters_row _ _ _ _ _ Hrow).
  by rewrite format_with_raises.
Qed.

Lemma stride_reaches_last_line_raises_witness :
  db_default !! 7%Z = Some (mkRow "Blue" "-") ∧
  6 ≤ length ["H1"; "H2"; "H3"; "00:01:23:00";
              "...|M:Intro |D:...C:ResolveColorBlue..."; "skip"; "extra"] ∧
  length ["H1"; "H2"; "H3"; "00:01:23:00";
          "...|M:Intro |D:...C:ResolveColorBlue..."; "skip"; "extra"] mod 3 = 1 ∧
  _format_chapters 7 ["H1"; "H2"; "H3"; "00:01:23:00";
                      "...|M:Intro |D:...C:ResolveColorBlue..."; "skip"; "extra"]
                   db_default
    = (Raise IndexError, db_default).
Proof.
  split; [reflexivity|]. split; [simpl; lia|]. split; [reflexivity|].
  apply (stride_reaches_last_line_raises _ _ "Blue" "-");
    [reflexivity|simpl; lia|reflexivity].
Defined.

(** C10: the outcome is a function of the lines and of the two stored
    choices, and the call changes nothing. Two calls, made for any two users
    on any two tables, give the same outcome (the same text, or the same
    exception) as soon as the two users have the same row, or both have
    none: nothing else of the table, and nothing of the user id, reaches the
    result. Each call leaves its table as it found it. *)
Theorem same_choices_same_outcome
    (db1 db2 : gmap Z Row) (user1 user2 : Z) (lines : list string) :
  db1 !! user1 = db2 !! user2 →
  (_format_chapters user1 lines db1).1 = (_format_chapters user2 lines db2).1 ∧
  (_format_chapters user1 lines db1).2 = db1 ∧
  (_format_chapters user2 lines db2).2 = db2.
Proof.
  intros Hrow. destruct (db2 !! user2) as [[c sep]|] eqn:Hrow2.
  - by rewrite (_format_chapters_row _ _ _ _ _ Hrow),
      (_format_chapters_row _ _ _ _ _ Hrow2).
  - by rewrite (_format_chapters_no_row _ _ _ Hrow),
      (_format_chapters_no_row _ _ _ Hrow2).
Qed.

Lemma same_choices_same_outcome_witness :
  db_default !! 7%Z
    = (add_user 8 (update_chapters_separator 7 "|" (add_user 9 db_default).2).2).2
        !! 9%Z ∧
  (_format_chapters 7
     ["H1"; "H2"; "H3"; "00:01:23:00";
      "...|M:Intro |D:...C:ResolveColorBlue..."; "skip"] db_default).1
    = (_format_chapters 9
         ["H1"; "H2"; "H3"; "00:01:23:00";
          "...|M:Intro |D:...C:ResolveColorBlue..."; "skip"]
         (add_user 8
            (update_chapters_separator 7 "|" (add_user 9 db_default).2).2).2).1 ∧
  (_format_chapters 7
     ["H1"; "H2"; "H3"; "00:01:23:00";
      "...|M:Intro |D:...C:ResolveColorBlue..."; "skip"] db_default).2
    = db_default ∧
  (_format_chapters 9
     ["H1"; "H2"; "H3"; "00:01:23:00";
      "...|M:Intro |D:...C:ResolveColorBlue..."; "skip"]
     (add_user 8
        (update_chapters_separator 7 "|" (add_user 9 db_default).2).2).2).2
    = (add_user 8 (update_chapters_separator 7 "|" (add_user 9 db_default).2).2).2.
Proof.
  split; [reflexivity|].
  apply (same_choices_same_outcome db_default
           (add_user 8
              (update_chapters_separator 7 "|" (add_user 9 db_default).2).2).2
           7%Z 9%Z).
  reflexivity.
Defined.

(** C7: the separator is only written out. The records kept,
    [extract_records], are found without it, and the output is these records
    with the separator put between time and label as it is, whatever
    characters it holds. *)
Theorem separator_only_formats
    (db : gmap Z Row) (user_id : Z) (m_color c_separator : string)
    (lines : list string) :
  db !! user_id = Some (mkRow m_color c_separator) →
  _format_chapters user_id lines db
    = (render c_separator <$> extract_records m_color lines, db) ∧
  ∀ t label, render_line c_separator (t, label)
             = t +:+ " " +:+ c_separator +:+ " " +:+ label.
Proof.
  intros Hrow. split; [|done].
  rewrite (_format_chapters_row _ _ _ _ _ Hrow). by rewrite format_with_extract.
Qed.

Lemma separator_only_formats_witness :
  db_with "Blue" ".|*" !! 7%Z = Some (mkRow "Blue" ".|*") ∧
  (_format_chapters 7 ["H1"; "H2"; "H3"; "00:01:23:00";
                       "...|M:Intro |D:...C:ResolveColorBlue..."; "skip"]
                    (db_with "Blue" ".|*")
     = (render ".|*" <$>
          extract_records "Blue"
            ["H1"; "H2"; "H3"; "00:01:23:00";
             "...|M:Intro |D:...C:ResolveColorBlue..."; "skip"],
        db_with "Blue" ".|*") ∧
   ∀ t label, render_line ".|*" (t, label) = t +:+ " " +:+ ".|*" +:+ " " +:+ label).
Proof.
  split; [reflexivity|].
  apply (separator_only_formats (db_with "Blue" ".|*") 7 "Blue" ".|*"). reflexivity.
Defined.

(** The same file under two separators: the same record, the separator
    copied as it is. *)
Example separator_special_characters :
  extract_records "Blue" ["H1"; "H2"; "H3"; "00:01:23:00";
                          "...|M:Intro |D:...C:ResolveColorBlue..."; "skip"]
    = Ok [("00:01:23", "Intro")] ∧
  render ".|*" [("00:01:23", "Intro")]
    = "CAPITOLI" +:+ nl +:+ "--------------------" +:+ nl +:+ "00:01:23 .|* Intro" ∧
  render "-" [("00:01:23", "Intro")]
    = "CAPITOLI" +:+ nl +:+ "--------------------" +:+ nl +:+ "00:01:23 - Intro".
Proof. repeat split; reflexivity. Qed.

(** C8: the header lines and the third line of every triplet are never
    read: two inputs of the same length that agree on the timestamp and
    metadata lines (index [i >= 3] with [i mod 3] 0 or 1) give the same
    outcome. *)
Theorem unused_lines_are_ignored
    (db : gmap Z Row) (user_id : Z) (lines1 lines2 : list string) :
  length lines1 = length lines2 →
  (∀ i, 3 ≤ i → i mod 3 = 0 ∨ i mod 3 = 1 → lines1 !! i = lines2 !! i) →
  _format_chapters user_id lines1 db = _format_chapters user_id lines2 db.
Proof.
  intros Hlen Hagree.
  destruct (db !! user_id) as [[c sep]|] eqn:Hrow;
    [|by rewrite !(_format_chapters_no_row _ _ _ Hrow)].
  rewrite !(_format_chapters_row _ _ _ _ _ Hrow). f_equal.
  rewrite !format_with_extract. f_equal.
  unfold extract_records. rewrite <- Hlen.
  destruct (length lines1 <? 6); [done|].
  destruct (length lines1 mod 3 =? 1); [done|]. f_equal.
  apply omap_ext_in. intros i (H3 & _ & Hm)%elem_of_range3.
  unfold fields_at. rewrite (Hagree i) by auto.
  rewrite (Hagree (i + 1)); [done|lia|].
  right. by rewrite <- Nat.Div0.add_mod_idemp_l, Hm.
Qed.

Lemma unused_lines_are_ignored_witness :
  length ["H1"; "H2"; "H3"; "00:01:23:00";
          "...|M:Intro |D:...C:ResolveColorBlue..."; "skip"]
    = length ["TITLE"; "FCM"; ""; "00:01:23:00";
              "...|M:Intro |D:...C:ResolveColorBlue..."; "01:00:00:00"] ∧
  (∀ i, 3 ≤ i → i mod 3 = 0 ∨ i mod 3 = 1 →
        ["H1"; "H2"; "H3"; "00:01:23:00";
         "...|M:Intro |D:...C:ResolveColorBlue..."; "skip"] !! i
        = ["TITLE"; "FCM"; ""; "00:01:23:00";
           "...|M:Intro |D:...C:ResolveColorBlue..."; "01:00:00:00"] !! i) ∧
  _format_chapters 7 ["H1"; "H2"; "H3"; "00:01:23:00";
                      "...|M:Intro |D:...C:ResolveColorBlue..."; "skip"] db_default
    = _format_chapters 7 ["TITLE"; "FCM"; ""; "00:01:23:00";
                          "...|M:Intro |D:...C:ResolveColorBlue..."; "01:00:00:00"]
                       db_default.
Proof.
  assert (∀ i, 3 ≤ i → i mod 3 = 0 ∨ i mod 3 = 1 →
            ["H1"; "H2"; "H3"; "00:01:23:00";
             "...|M:Intro |D:...C:ResolveColorBlue..."; "skip"] !! i
            = ["TITLE"; "FCM"; ""; "00:01:23:00";
               "...|M:Intro |D:...C:ResolveColorBlue..."; "01:00:00:00"] !! i) as Hagree.
  { intros [|[|[|[|[|[|i]]]]]] H3 Hm; try lia; try reflexivity.
    destruct Hm as [Hm|Hm]; vm_compute in Hm; discriminate. }
  split; [reflexivity|]. split; [exact Hagree|].
  apply unused_lines_are_ignored; [reflexivity|exact Hagree].
Defined.

(** C2: one record that has the color, a timestamp and a label gives the
    header and one chapter line, made of the first timestamp of line 3 and
    the first label of line 4; and so does the example of the specification. *)
Theorem single_record_output :
  (∀ (db : gmap Z Row) (user_id : Z) (m_color c_separator : string)
     (l0 l1 l2 l3 l4 l5 : string),
     db !! user_id = Some (mkRow m_color c_separator) →
     contains ("C:ResolveColor" +:+ m_color) l4 →
     (∃ pre t, occurs_at time_re l3 pre t) →
     (∃ pre w, occurs_at name_re l4 pre w) →
     ∃ time label,
       first_occurrence time_re l3 time ∧ first_label l4 label ∧
       _format_chapters user_id [l0; l1; l2; l3; l4; l5] db
         = (Ok ("CAPITOLI" +:+ nl +:+ "--------------------" +:+ nl +:+
                time +:+ " " +:+ c_separator +:+ " " +:+ label), db)) ∧
  (∀ (db : gmap Z Row) (user_id : Z),
     db !! user_id = Some (mkRow "Blue" "-") →
     _format_chapters user_id
       ["H1"; "H2"; "H3"; "00:01:23:00";
        "...|M:Intro |D:...C:ResolveColorBlue..."; "skip"] db
       = (Ok ("CAPITOLI" +:+ nl +:+ "--------------------" +:+ nl +:+
              "00:01:23 - Intro"), db)).
Proof.
  split.
  - intros db user_id c sep l0 l1 l2 l3 l4 l5 Hrow Hc (pt & t & Ht) (pw & w & Hw).
    apply first_occurrence_exists in Ht as [time Ht].
    apply first_label_exists in Hw as [label Hl].
    exists time, label. split; [done|]. split; [done|].
    rewrite (_format_chapters_row _ _ _ _ _ Hrow).
    rewrite format_with_returns by (cbn; lia || done).
    change (range 3 (length [l0; l1; l2; l3; l4; l5]) 3) with [3].
    cbn [omap list_omap]. unfold fields_at.
    cbn [lookup list_lookup Nat.add mbind option_bind].
    by rewrite (record_fields_first _ _ _ time label).
  - intros db user_id Hrow. by rewrite (_format_chapters_row _ _ _ _ _ Hrow).
Qed.

Lemma single_record_output_witness :
  (db_with "Green" "|" !! 7%Z = Some (mkRow "Green" "|") ∧
   contains ("C:ResolveColor" +:+ "Green")
     " |C:ResolveColorGreen |M:Opening credits |D:1" ∧
   (∃ pre t, occurs_at time_re "001  001  V  C  01:00:10:00 01:00:10:01" pre t) ∧
   (∃ pre w, occurs_at name_re " |C:ResolveColorGreen |M:Opening credits |D:1" pre w) ∧
   ∃ time label,
     first_occurrence time_re "001  001  V  C  01:00:10:00 01:00:10:01" time ∧
     first_label " |C:ResolveColorGreen |M:Opening credits |D:1" label ∧
     _format_chapters 7
       ["TITLE: Timeline 1"; "FCM: NON-DROP FRAME"; "";
        "001  001  V  C  01:00:10:00 01:00:10:01";
        " |C:ResolveColorGreen |M:Opening credits |D:1"; ""] (db_with "Green" "|")
       = (Ok ("CAPITOLI" +:+ nl +:+ "--------------------" +:+ nl +:+
              time +:+ " " +:+ "|" +:+ " " +:+ label), db_with "Green" "|")) ∧
  (db_default !! 7%Z = Some (mkRow "Blue" "-") ∧
   _format_chapters 7
     ["H1"; "H2"; "H3"; "00:01:23:00";
      "...|M:Intro |D:...C:ResolveColorBlue..."; "skip"] db_default
     = (Ok ("CAPITOLI" +:+ nl +:+ "--------------------" +:+ nl +:+
            "00:01:23 - Intro"), db_default)).
Proof.
  assert (contains ("C:ResolveColor" +:+ "Green")
            " |C:ResolveColorGreen |M:Opening credits |D:1") as Hc.
  { apply str_in_spec. reflexivity. }
  assert (∃ pre t, occurs_at time_re "001  001  V  C  01:00:10:00 01:00:10:01" pre t)
    as Ht.
  { exists "001  001  V  C  ", "01:00:10", ":00 01:00:10:01".
    split; [reflexivity|]. apply full_match_spec. reflexivity. }
  assert (∃ pre w, occurs_at name_re
                     " |C:ResolveColorGreen |M:Opening credits |D:1" pre w) as Hw.
  { exists " |C:ResolveColorGreen ", "|M:Opening credits |D:", "1".
    split; [reflexivity|]. apply full_match_spec. reflexivity. }
  split.
  - split; [reflexivity|]. split; [exact Hc|]. split; [exact Ht|]. split; [exact Hw|].
    apply (proj1 single_record_output (db_with "Green" "|") 7%Z "Green" "|");
      [reflexivity|exact Hc|exact Ht|exact Hw].
  - split; [reflexivity|].
    apply (proj2 single_record_output). reflexivity.
Defined.

(** The time and the label of that witness. *)
Example single_record_fields :
  first_occurrence time_re "001  001  V  C  01:00:10:00 01:00:10:01" "01:00:10" ∧
  first_label " |C:ResolveColorGreen |M:Opening credits |D:1" "Opening credits".
Proof.
  split.
  - apply (search_sound time_re _ (mkMatch 16 "01:00:10" None)). reflexivity.
  - apply (first_label_search _
             (mkMatch 22 "|M:Opening credits |D:" (Some "Opening credits")));
      reflexivity.
Qed.

(** The digits of the timestamp are those of [\d], the decimal digits of
    every script: on a line that starts with a time in Arabic-Indic digits
    this time is the first timestamp, and the one that is written out. *)
Example single_record_unicode_digits :
  first_occurrence time_re "٠١:٢٣:٤٥ 00:01:23" "٠١:٢٣:٤٥" ∧
  _format_chapters 7
    ["H1"; "H2"; "H3"; "٠١:٢٣:٤٥ 00:01:23";
     "...|M:Intro |D:...C:ResolveColorBlue..."; "skip"] db_default
    = (Ok (header +:+ nl +:+ "٠١:٢٣:٤٥ - Intro"), db_default).
Proof.
  split; [|reflexivity].
  apply (search_sound time_re _ (mkMatch 0 "٠١:٢٣:٤٥" None)). reflexivity.
Qed.

(** C6: a header and two records, of which only the second has the color
    and gives both fields: the loop ends with the header and one chapter
    line, and the result is the header followed by that line, made of the
    second record's time and label. The file may or may not hold the third
    line of the second record. *)
Theorem only_second_record_kept
    (db : gmap Z Row) (user_id : Z) (m_color c_separator : string)
    (h0 h1 h2 t1 m1 x1 t2 m2 time label : string) (tail : list string) :
  db !! user_id = Some (mkRow m_color c_separator) →
  length tail ≤ 1 →
  ¬ contains ("C:ResolveColor" +:+ m_color) m1 →
  contains ("C:ResolveColor" +:+ m_color) m2 →
  first_occurrence time_re t2 time →
  first_label m2 label →
  let lines := [h0; h1; h2; t1; m1; x1; t2; m2] ++ tail in
  for_loop m_color c_separator lines (range 3 (length lines) 3) [header]
    = Ok [header; time +:+ " " +:+ c_separator +:+ " " +:+ label] ∧
  _format_chapters user_id lines db
    = (Ok (header +:+ nl +:+ time +:+ " " +:+ c_separator +:+ " " +:+ label), db).
Proof.
  intros Hrow Htail Hm1 Hm2 Ht Hl lines.
  assert (range 3 (length lines) 3 = [3; 6]) as Hrange.
  { subst lines. by destruct tail as [|x2 [|? ?]]; [..|simpl in Htail; lia]. }
  assert (omap (fields_at m_color lines) [3; 6] = [(time, label)]) as Hkept.
  { subst lines. cbn [omap list_omap]. unfold fields_at.
    cbn [app lookup list_lookup Nat.add mbind option_bind].
    rewrite (record_fields_other_color _ _ _ Hm1).
    by rewrite (record_fields_first _ _ _ time label). }
  assert (6 ≤ length lines) as Hn by (subst lines; cbn; lia).
  split.
  - rewrite for_loop_ok.
    + by rewrite Hrange, Hkept.
    + rewrite Hrange. subst lines. intros i Hi. rewrite length_app. cbn.
      rewrite !elem_of_cons, elem_of_nil in Hi. lia.
  - rewrite (_format_chapters_row _ _ _ _ _ Hrow).
    rewrite format_with_returns.
    + by rewrite Hrange, Hkept.
    + done.
    + subst lines. by destruct tail as [|x2 [|? ?]]; [..|simpl in Htail; lia].
Qed.

Lemma only_second_record_kept_witness :
  db_default !! 7%Z = Some (mkRow "Blue" "-") ∧
  length [""] ≤ 1 ∧
  ¬ contains ("C:ResolveColor" +:+ "Blue") " |C:ResolveColorRed |M:Cut here |D:1" ∧
  contains ("C:ResolveColor" +:+ "Blue") " |C:ResolveColorBlue |M:Part two |D:1" ∧
  first_occurrence time_re "002  001  V  C  01:02:03:04 01:02:03:05" "01:02:03" ∧
  first_label " |C:ResolveColorBlue |M:Part two |D:1" "Part two" ∧
  (for_loop "Blue" "-"
     (["TITLE: Timeline 1"; "FCM: NON-DROP FRAME"; "";
       "001  001  V  C  01:00:10:00 01:00:10:01";
       " |C:ResolveColorRed |M:Cut here |D:1"; "";
       "002  001  V  C  01:02:03:04 01:02:03:05";
       " |C:ResolveColorBlue |M:Part two |D:1"] ++ [""])
     (range 3
        (length (["TITLE: Timeline 1"; "FCM: NON-DROP FRAME"; "";
                  "001  001  V  C  01:00:10:00 01:00:10:01";
                  " |C:ResolveColorRed |M:Cut here |D:1"; "";
                  "002  001  V  C  01:02:03:04 01:02:03:05";
                  " |C:ResolveColorBlue |M:Part two |D:1"] ++ [""])) 3)
     [header]
     = Ok [header; "01:02:03" +:+ " " +:+ "-" +:+ " " +:+ "Part two"] ∧
   _format_chapters 7
     (["TITLE: Timeline 1"; "FCM: NON-DROP FRAME"; "";
       "001  001  V  C  01:00:10:00 01:00:10:01";
       " |C:ResolveColorRed |M:Cut here |D:1"; "";
       "002  001  V  C  01:02:03:04 01:02:03:05";
       " |C:ResolveColorBlue |M:Part two |D:1"] ++ [""]) db_default
     = (Ok (header +:+ nl +:+ "01:02:03" +:+ " " +:+ "-" +:+ " " +:+ "Part two"),
        db_default)).
Proof.
  assert (¬ contains ("C:ResolveColor" +:+ "Blue")
            " |C:ResolveColorRed |M:Cut here |D:1") as Hm1.
  { apply str_in_false. reflexivity. }
  assert (contains ("C:ResolveColor" +:+ "Blue")
            " |C:ResolveColorBlue |M:Part two |D:1") as Hm2.
  { apply str_in_spec. reflexivity. }
  assert (first_occurrence time_re "002  001  V  C  01:02:03:04 01:02:03:05"
            "01:02:03") as Ht.
  { apply (search_sound time_re _ (mkMatch 16 "01:02:03" None)). reflexivity. }
  assert (first_label " |C:ResolveColorBlue |M:Part two |D:1" "Part two") as Hl.
  { apply (first_label_search _ (mkMatch 21 "|M:Part two |D:" (Some "Part two")));
      reflexivity. }
  split; [reflexivity|]. split; [simpl; lia|]. split; [exact Hm1|].
  split; [exact Hm2|]. split; [exact Ht|]. split; [exact Hl|].
  apply (only_second_record_kept db_default 7%Z "Blue" "-");
    [reflexivity|simpl; lia|exact Hm1|exact Hm2|exact Ht|exact Hl].
Defined.

(** C9: the color test is the substring test, and nothing more. A record
    whose metadata line holds the tag and the color, whatever follows, goes
    through the extraction as a record of that color; with the empty color
    every record whose metadata line holds the tag does; and so [Blue] keeps
    a record tagged [BlueDark]. Conversely a record whose metadata line does
    not hold the tag followed by the color is passed over: the results are
    left as they were, and the first line of the record is not read. *)
Theorem color_test_is_substring_test :
  (∀ (m_color c_separator : string) (lines results : list string) (i : nat)
     (line meta pre post : string),
     lines !! i = Some line →
     lines !! (i + 1) = Some meta →
     meta = pre +:+ "C:ResolveColor" +:+ m_color +:+ post →
     str_in ("C:ResolveColor" +:+ m_color) meta = true ∧
     loop_body m_color c_separator lines results i
       = Ok (match search time_re line, search name_re meta with
             | Some mt, Some mn =>
                 results ++ [group0 mt +:+ " " +:+ c_separator +:+ " " +:+
                             fmt_group (group1 mn)]
             | _, _ => results
             end)) ∧
  (∀ (c_separator : string) (lines results : list string) (i : nat)
     (line meta pre post : string),
     lines !! i = Some line →
     lines !! (i + 1) = Some meta →
     meta = pre +:+ "C:ResolveColor" +:+ post →
     loop_body "" c_separator lines results i
       = Ok (match search time_re line, search name_re meta with
             | Some mt, Some mn =>
                 results ++ [group0 mt +:+ " " +:+ c_separator +:+ " " +:+
                             fmt_group (group1 mn)]
             | _, _ => results
             end)) ∧
  (∀ (db : gmap Z Row) (user_id : Z),
     db !! user_id = Some (mkRow "Blue" "-") →
     _format_chapters user_id
       ["H1"; "H2"; "H3"; "00:01:23:00";
        " |C:ResolveColorBlueDark |M:Intro |D:1"; ""] db
       = (Ok (header +:+ nl +:+ "00:01:23 - Intro"), db)) ∧
  (∀ (m_color c_separator : string) (lines results : list string) (i : nat)
     (meta : string),
     lines !! (i + 1) = Some meta →
     ¬ contains ("C:ResolveColor" +:+ m_color) meta →
     str_in ("C:ResolveColor" +:+ m_color) meta = false ∧
     loop_body m_color c_separator lines results i = Ok results).
Proof.
  assert (∀ (m_color c_separator : string) (lines results : list string) (i : nat)
            (line meta pre post : string),
            lines !! i = Some line →
            lines !! (i + 1) = Some meta →
            meta = pre +:+ "C:ResolveColor" +:+ m_color +:+ post →
            str_in ("C:ResolveColor" +:+ m_color) meta = true ∧
            loop_body m_color c_separator lines results i
              = Ok (match search time_re line, search name_re meta with
                    | Some mt, Some mn =>
                        results ++ [group0 mt +:+ " " +:+ c_separator +:+ " " +:+
                                    fmt_group (group1 mn)]
                    | _, _ => results
                    end)) as Hgen.
  { intros c sep lines results i line meta pre post Hl Hm Hmeta.
    assert (str_in ("C:ResolveColor" +:+ c) meta = true) as Hin.
    { apply str_in_spec. exists pre, post. by rewrite sapp_assoc. }
    split; [done|].
    unfold loop_body, getitem. rewrite Hm. cbn. rewrite Hin, Hl. cbn.
    by destruct (search time_re line), (search name_re meta). }
  split; [exact Hgen|]. split; [|split].
  - intros sep lines results i line meta pre post Hl Hm Hmeta.
    apply (Hgen "" sep lines results i line meta pre post Hl Hm Hmeta).
  - intros db user_id Hrow. by rewrite (_format_chapters_row _ _ _ _ _ Hrow).
  - intros c sep lines results i meta Hm Hnot.
    apply str_in_false in Hnot. split; [done|].
    unfold loop_body, getitem. rewrite Hm. cbn. by rewrite Hnot.
Qed.

Lemma color_test_is_substring_test_witness :
  ["H1"; "H2"; "H3"; "00:01:23:00"; " |C:ResolveColorBlueDark |M:Intro |D:1"; ""]
    !! 3 = Some "00:01:23:00" ∧
  ["H1"; "H2"; "H3"; "00:01:23:00"; " |C:ResolveColorBlueDark |M:Intro |D:1"; ""]
    !! (3 + 1) = Some " |C:ResolveColorBlueDark |M:Intro |D:1" ∧
  " |C:ResolveColorBlueDark |M:Intro |D:1"
    = " |" +:+ "C:ResolveColor" +:+ "Blue" +:+ "Dark |M:Intro |D:1" ∧
  loop_body "Blue" "-"
    ["H1"; "H2"; "H3"; "00:01:23:00"; " |C:ResolveColorBlueDark |M:Intro |D:1"; ""]
    [header] 3
    = Ok [header; "00:01:23 - Intro"] ∧
  db_default !! 7%Z = Some (mkRow "Blue" "-") ∧
  _format_chapters 7
    ["H1"; "H2"; "H3"; "00:01:23:00"; " |C:ResolveColorBlueDark |M:Intro |D:1"; ""]
    db_default
    = (Ok (header +:+ nl +:+ "00:01:23 - Intro"), db_default) ∧
  ["H1"; "H2"; "H3"; "00:01:23:00"; " |C:ResolveColorBlu |M:Intro |D:1"; ""]
    !! (3 + 1) = Some " |C:ResolveColorBlu |M:Intro |D:1" ∧
  ¬ contains ("C:ResolveColor" +:+ "Blue") " |C:ResolveColorBlu |M:Intro |D:1" ∧
  str_in ("C:ResolveColor" +:+ "Blue") " |C:ResolveColorBlu |M:Intro |D:1" = false ∧
  loop_body "Blue" "-"
    ["H1"; "H2"; "H3"; "00:01:23:00"; " |C:ResolveColorBlu |M:Intro |D:1"; ""]
    [header] 3
    = Ok [header].
Proof.
  assert (¬ contains ("C:ResolveColor" +:+ "Blue")
            " |C:ResolveColorBlu |M:Intro |D:1") as Hnot.
  { apply str_in_false. reflexivity. }
  split; [reflexivity|]. split; [reflexivity|]. split; [reflexivity|]. split.
  - apply (proj1 color_test_is_substring_test "Blue" "-" _ [header] 3
             "00:01:23:00" " |C:ResolveColorBlueDark |M:Intro |D:1"
             " |" "Dark |M:Intro |D:1"); reflexivity.
  - split; [reflexivity|]. split.
    + apply (proj1 (proj2 (proj2 color_test_is_substring_test)) db_default 7%Z).
      reflexivity.
    + split; [reflexivity|]. split; [exact Hnot|].
      apply (proj2 (proj2 (proj2 color_test_is_substring_test)) "Blue" "-"
               ["H1"; "H2"; "H3"; "00:01:23:00";
                " |C:ResolveColorBlu |M:Intro |D:1"; ""]
               [header] 3 " |C:ResolveColorBlu |M:Intro |D:1");
        [reflexivity|exact Hnot].
Defined.

(** C4: a file in which no record has the color should give the empty
    string. It does when the loop gets through ([no_record_kept_empty]), but
    not on this file of seven lines, none of which holds the tag: the index 6
    is in the stride, [lines[7]] is out of range and [IndexError] is raised. *)
Theorem no_match_trailing_line_raises :
  let lines := ["TITLE: Timeline 1"; "FCM: NON-DROP FRAME"; "";
                "001  001  V  C  01:00:10:00 01:00:10:01";
                " |C:ResolveColorRed |M:Cut here |D:1"; ""; ""] in
  Forall (λ l, str_in ("C:ResolveColor" +:+ "Blue") l = false) lines ∧
  range 3 (length lines) 3 = [3; 6] ∧
  lines !! (6 + 1) = None ∧
  _format_chapters 7 lines db_default = (Raise IndexError, db_default).
Proof.
  cbv zeta. split; [by repeat constructor|]. by repeat split.
Qed.

(** C5: a record with the color and no timestamp is passed over and the
    records after it are still read ([malformed_record_skipped], and
    [kept_records] when the loop gets through). On this file of ten lines the
    first record is passed over and the second one is kept, but the index 9
    is in the stride, [lines[10]] is out of range, and the function raises
    [IndexError]: the chapter line of the second record is lost. *)
Theorem skipped_record_trailing_line_raises :
  let lines := ["TITLE: Timeline 1"; "FCM: NON-DROP FRAME"; "";
                "001  001  V  C"; " |C:ResolveColorBlue |M:No time |D:1"; "";
                "002  001  V  C  01:02:03:04 01:02:03:05";
                " |C:ResolveColorBlue |M:Part two |D:1"; ""; ""] in
  str_in ("C:ResolveColor" +:+ "Blue") " |C:ResolveColorBlue |M:No time |D:1" = true ∧
  search time_re "001  001  V  C" = None ∧
  loop_body "Blue" "-" lines [header] 3 = Ok [header] ∧
  loop_body "Blue" "-" lines [header] 6 = Ok [header; "01:02:03 - Part two"] ∧
  loop_body "Blue" "-" lines [header; "01:02:03 - Part two"] 9 = Raise IndexError ∧
  _format_chapters 7 lines db_default = (Raise IndexError, db_default).
Proof. cbv zeta. by repeat split. Qed.

(** The two files above without their last line: the empty string for the
    first, the header and the line of the second record for the other. *)
Example without_trailing_line :
  _format_chapters 7
    ["TITLE: Timeline 1"; "FCM: NON-DROP FRAME"; "";
     "001  001  V  C  01:00:10:00 01:00:10:01";
     " |C:ResolveColorRed |M:Cut here |D:1"; ""] db_default
    = (Ok "", db_default) ∧
  _format_chapters 7
    ["TITLE: Timeline 1"; "FCM: NON-DROP FRAME"; "";
     "001  001  V  C"; " |C:ResolveColorBlue |M:No time |D:1"; "";
     "002  001  V  C  01:02:03:04 01:02:03:05";
     " |C:ResolveColorBlue |M:Part two |D:1"; ""] db_default
    = (Ok (header +:+ nl +:+ "01:02:03 - Part two"), db_default).
Proof. by split. Qed.

(* ===================================================================== *)
(** ** More about the result of [_format_chapters]                       *)
(* ===================================================================== *)

Module OutputFacts.
Import PyStr PyStrFacts Re ReSpec ReFacts Db Chapters ChaptersSpec ChaptersFacts.
Import OutputSpec.

Lemma all_chars_app p (a b : string) :
  all_chars p (a +:+ b) = all_chars p a && all_chars p b.
Proof.
  induction a as [|x a IH]; [done|]. rewrite sapp_cons. cbn.
  by rewrite IH, andb_assoc.
Qed.

(** The words of the time pattern have the shape [is_timestamp]. *)
Lemma matches_time_shape t : matches time_re t → is_timestamp t = true.
Proof.
  intros H. unfold time_re in H. cbn [rrepeat] in H.
  repeat match goal with
         | H : matches (RSeq _ _) _ |- _ => inversion H; subst; clear H
         | H : matches (RChar _) _ |- _ => inversion H; subst; clear H
         | H : matches RDigit _ |- _ => inversion H; subst; clear H
         end.
  repeat match goal with
         | H : accepts (CLit _) ?a = true |- _ =>
             cbn [accepts] in H; apply Ascii.eqb_eq in H; subst a
         end.
  unfold is_timestamp. rewrite !sapp_assoc, !sapp_cons, !sapp_nil_l.
  repeat (rewrite digit_prefix_app by assumption;
          cbn [mbind option_bind colon_prefix]).
  match goal with H : digit_prefix ?d = _ |- context [digit_prefix ?d] =>
    by rewrite H end.
Qed.

Lemma first_label_chars text lab :
  first_label text lab → all_chars (accepts CDot) lab = true.
Proof. by intros (pre & (post & _ & Hl) & _). Qed.

(** The lazy star stops at the first [ |D:]: the label holds none. *)
Lemma first_label_no_delimiter text lab :
  first_label text lab → ¬ contains " |D:" lab.
Proof.
  intros (pre & (post & Htext & Hl) & Hmin) (a & b & ->).
  rewrite all_chars_app in Hl. apply andb_true_iff in Hl as [Ha _].
  destruct (Hmin pre a) as [Hlt|[_ Hle]].
  - exists (b +:+ " |D:" +:+ post). split; [|done].
    rewrite Htext. by rewrite !sapp_assoc.
  - lia.
  - rewrite !slength_app in Hle. cbn in Hle. lia.
Qed.

(** What [record_fields] returns, said without the matcher. *)
Lemma record_fields_spec c line meta t l :
  record_fields c line meta = Some (t, l) ↔
  contains ("C:ResolveColor" +:+ c) meta ∧
  first_occurrence time_re line t ∧ first_label meta l.
Proof.
  split; [|by intros (? & ? & ?); apply record_fields_first].
  unfold record_fields.
  destruct (str_in _ meta) eqn:Hin; [|done]. apply str_in_spec in Hin.
  destruct (search time_re line) as [mt|] eqn:Ht; [|done].
  destruct (search name_re meta) as [mn|] eqn:Hn; [|done].
  intros [= <- <-]. apply search_sound in Ht.
  apply search_name_spec in Hn as (lab & -> & _ & Hl). done.
Qed.

Lemma record_fields_well_formed c line meta e :
  record_fields c line meta = Some e → well_formed_fields e.
Proof.
  destruct e as [t l]. intros (_ & Ht & Hl)%record_fields_spec.
  split; [|split].
  - destruct Ht as (pre & (post & _ & Hm) & _). by apply matches_time_shape.
  - by apply (first_label_chars meta).
  - by apply (first_label_no_delimiter meta).
Qed.

Lemma fields_at_spec c lines i t l :
  fields_at c lines i = Some (t, l) ↔ record_gives c lines i t l.
Proof.
  unfold fields_at, record_gives. split.
  - destruct (lines !! i) as [line|] eqn:Hl; [|done]. cbn.
    destruct (lines !! (i + 1)) as [meta|] eqn:Hm; [|done]. cbn.
    intros H%record_fields_spec. exists line, meta. by destruct H as (? & ? & ?).
  - intros (line & meta & -> & -> & H). cbn. apply record_fields_spec. done.
Qed.

Lemma render_cons sep e es :
  render sep (e :: es)
  = header +:+ nl +:+ join nl (render_line sep <$> (e :: es)).
Proof. done. Qed.

Lemma render_empty_iff sep es : render sep es = "" ↔ es = [].
Proof.
  split; [|by intros ->]. destruct es as [|e es]; [done|].
  rewrite render_cons. done.
Qed.

Lemma render_cons_nonempty sep e es : ∃ a s, render sep (e :: es) = String a s.
Proof. rewrite render_cons. unfold header. rewrite sapp_cons. eauto. Qed.

Lemma join_snoc sep x xs y :
  join sep ((x :: xs) ++ [y]) = join sep (x :: xs) +:+ sep +:+ y.
Proof.
  revert x. induction xs as [|x' xs IH]; intros x; [done|].
  change (join sep ((x :: x' :: xs) ++ [y]))
    with (x +:+ sep +:+ join sep ((x' :: xs) ++ [y])).
  rewrite IH.
  change (join sep (x :: x' :: xs)) with (x +:+ sep +:+ join sep (x' :: xs)).
  by rewrite !sapp_assoc.
Qed.

(** One more record kept: one more line, after the header when it is the
    first. *)
Lemma render_snoc sep es e :
  render sep (es ++ [e])
  = match render sep es with
    | EmptyString => header
    | _ => render sep es
    end +:+ nl +:+ render_line sep e.
Proof.
  destruct es as [|e0 es]; [done|].
  destruct (render_cons_nonempty sep e0 es) as (a & s & Hr). rewrite Hr, <- Hr.
  transitivity (join nl ((header :: (render_line sep <$> e0 :: es))
                         ++ [render_line sep e])).
  - cbn [app]. unfold render. by rewrite !fmap_cons, fmap_app.
  - by rewrite join_snoc.
Qed.

Lemma extract_records_well_formed c lines es :
  extract_records c lines = Ok es → Forall well_formed_fields es.
Proof.
  unfold extract_records. destruct (length lines <? 6); [by intros [= <-]|].
  destruct (length lines mod 3 =? 1); [done|]. intros [= <-].
  apply Forall_forall. intros e (i & _ & He)%list_elem_of_omap.
  unfold fields_at in He.
  destruct (lines !! i) as [line|]; [|done].
  destruct (lines !! (i + 1)) as [meta|]; [|done].
  by apply (record_fields_well_formed c line meta).
Qed.

Lemma extract_records_raises c lines e :
  extract_records c lines = Raise e →
  e = IndexError ∧ 6 ≤ length lines ∧ length lines mod 3 = 1.
Proof.
  unfold extract_records. destruct (Nat.ltb_spec (length lines) 6); [done|].
  destruct (Nat.eqb_spec (length lines mod 3) 1); [|done]. by intros [= <-].
Qed.

(** *** Growing the file *)

Lemma range3_same n :
  n mod 3 = 2 → range 3 (n + 1) 3 = range 3 n 3.
Proof.
  intros Hm. unfold range. do 2 f_equal. change (3 - 1) with 2.
  pose proof (Nat.div_mod_eq n 3) as Hd.
  destruct (decide (n < 3)) as [Hlt|Hge].
  - rewrite Nat.mod_small in Hm by done. subst n. done.
  - rewrite <- (Nat.div_unique (n + 1 - 3 + 2) 3 (n / 3) 2) by lia.
    by rewrite <- (Nat.div_unique (n - 3 + 2) 3 (n / 3) 1) by lia.
Qed.

Lemma range3_snoc n :
  3 ≤ n → n mod 3 = 0 → range 3 (n + 3) 3 = range 3 n 3 ++ [n].
Proof.
  intros Hn Hm. unfold range. change (3 - 1) with 2.
  pose proof (Nat.div_mod_eq n 3) as Hd.
  rewrite <- (Nat.div_unique (n + 3 - 3 + 2) 3 (n / 3) 2) by lia.
  rewrite <- (Nat.div_unique (n - 3 + 2) 3 (n / 3 - 1) 2) by lia.
  replace (n / 3) with (S (n / 3 - 1)) at 1 by lia.
  rewrite seq_S, fmap_app. f_equal. cbn [fmap list_fmap]. f_equal. lia.
Qed.

Lemma fields_at_app c lines more i :
  i + 1 < length lines → fields_at c (lines ++ more) i = fields_at c lines i.
Proof.
  intros Hi. unfold fields_at. by rewrite !lookup_app_l by lia.
Qed.

Lemma extract_records_third_line c lines x :
  6 ≤ length lines → length lines mod 3 = 2 →
  extract_records c (lines ++ [x]) = extract_records c lines.
Proof.
  intros Hn Hm. unfold extract_records. rewrite length_app. cbn [length].
  assert ((length lines + 1) mod 3 = 0) as Hm'.
  { by rewrite <- Nat.Div0.add_mod_idemp_l, Hm. }
  rewrite Hm', Hm.
  destruct (Nat.ltb_spec (length lines + 1) 6); [lia|].
  destruct (Nat.ltb_spec (length lines) 6); [lia|].
  change (0 =? 1) with false. change (2 =? 1) with false. cbv beta iota zeta.
  rewrite range3_same by done. f_equal. apply omap_ext_in.
  intros i (H3 & Hi & Hz)%elem_of_range3. apply fields_at_app.
  destruct (decide (i + 1 = length lines)) as [Heq|]; [|lia].
  rewrite <- Heq, <- Nat.Div0.add_mod_idemp_l, Hz in Hm. done.
Qed.

Lemma extract_records_snoc c lines t m x :
  6 ≤ length lines → length lines mod 3 = 0 →
  extract_records c (lines ++ [t; m; x])
  = Ok (omap (fields_at c lines) (range 3 (length lines) 3)
        ++ option_list (record_fields c t m)).
Proof.
  intros Hn Hm. unfold extract_records. rewrite length_app. cbn [length].
  assert ((length lines + 3) mod 3 = 0) as Hm'.
  { by rewrite <- Nat.Div0.add_mod_idemp_l, Hm. }
  rewrite Hm'. destruct (Nat.ltb_spec (length lines + 3) 6); [lia|].
  change (0 =? 1) with false. cbv beta iota zeta.
  rewrite range3_snoc by (done || lia). rewrite omap_app. do 2 f_equal.
  - apply omap_ext_in. intros i (H3 & Hi & Hz)%elem_of_range3.
    apply fields_at_app.
    destruct (decide (i + 1 = length lines)) as [Heq|]; [|lia].
    rewrite <- Heq, <- Nat.Div0.add_mod_idemp_l, Hz in Hm. done.
  - cbn. unfold fields_at.
    rewrite (lookup_app_r lines) by lia.
    rewrite (lookup_app_r lines) by lia.
    replace (length lines - length lines) with 0 by lia.
    replace (length lines + 1 - length lines) with 1 by lia. cbn.
    by destruct (record_fields c t m).
Qed.

End OutputFacts.

Import OutputSpec OutputFacts.

(** X1: with the preferences stored, the function returns a string exactly
    when the file has fewer than six lines or a length not congruent to 1
    modulo 3, and [IndexError] is the only exception it raises. *)
Theorem format_chapters_returns_iff
    (db : gmap Z Row) (user_id : Z) (m_color c_separator : string)
    (lines : list string) :
  db !! user_id = Some (mkRow m_color c_separator) →
  ((∃ out, _format_chapters user_id lines db = (Ok out, db)) ↔
   (length lines < 6 ∨ length lines mod 3 ≠ 1)) ∧
  (∀ e, (_format_chapters user_id lines db).1 = Raise e → e = IndexError).
Proof.
  intros Hrow. rewrite (_format_chapters_row _ _ _ _ _ Hrow). split; [split|].
  - intros [out Hout]. destruct (decide (length lines < 6)) as [|Hn]; [by left|].
    right. intros Hm. rewrite format_with_raises in Hout by (done || lia). done.
  - intros [Hn|Hm].
    + exists "". by rewrite format_with_short.
    + destruct (decide (length lines < 6)) as [Hn|Hn].
      * exists "". by rewrite format_with_short.
      * eexists. by rewrite format_with_returns by (done || lia).
  - cbn. rewrite format_with_extract. intros e He.
    destruct (extract_records m_color lines) as [es|e'] eqn:Hx; [done|].
    injection He as <-. by apply extract_records_raises in Hx as [-> _].
Qed.

Lemma format_chapters_returns_iff_witness :
  db_default !! 7%Z = Some (mkRow "Blue" "-") ∧
  ((∃ out, _format_chapters 7
             ["TITLE: Timeline 1"; "FCM: NON-DROP FRAME"; "";
              "001  001  V  C  01:00:10:00 01:00:10:01";
              " |C:ResolveColorBlue |M:Intro |D:1"; "";
              "002  001  V  C  01:02:03:04 01:02:03:05";
              " |C:ResolveColorBlue |M:Part two |D:1"] db_default
           = (Ok out, db_default)) ↔
   (length ["TITLE: Timeline 1"; "FCM: NON-DROP FRAME"; "";
            "001  001  V  C  01:00:10:00 01:00:10:01";
            " |C:ResolveColorBlue |M:Intro |D:1"; "";
            "002  001  V  C  01:02:03:04 01:02:03:05";
            " |C:ResolveColorBlue |M:Part two |D:1"] < 6 ∨
    length ["TITLE: Timeline 1"; "FCM: NON-DROP FRAME"; "";
            "001  001  V  C  01:00:10:00 01:00:10:01";
            " |C:ResolveColorBlue |M:Intro |D:1"; "";
            "002  001  V  C  01:02:03:04 01:02:03:05";
            " |C:ResolveColorBlue |M:Part two |D:1"] mod 3 ≠ 1)) ∧
  (∀ e, (_format_chapters 7
           ["TITLE: Timeline 1"; "FCM: NON-DROP FRAME"; "";
            "001  001  V  C  01:00:10:00 01:00:10:01";
            " |C:ResolveColorBlue |M:Intro |D:1"; "";
            "002  001  V  C  01:02:03:04 01:02:03:05";
            " |C:ResolveColorBlue |M:Part two |D:1"] db_default).1 = Raise e →
        e = IndexError).
Proof.
  split; [reflexivity|].
  apply (format_chapters_returns_iff db_default 7%Z "Blue" "-"). reflexivity.
Defined.

(** X2: a returned string is empty, or it is the header followed by at
    least one chapter line [time separator label] in which the time is
    three pairs of decimal digits with colons between and the label has no
    line feed and no [ |D:]; the header never comes alone. *)
Theorem returned_text_shape
    (db : gmap Z Row) (user_id : Z) (m_color c_separator : string)
    (lines : list string) (out : string) :
  db !! user_id = Some (mkRow m_color c_separator) →
  _format_chapters user_id lines db = (Ok out, db) →
  out = "" ∨
  ∃ e es,
    out = header +:+ nl +:+
          join nl ((λ x, x.1 +:+ " " +:+ c_separator +:+ " " +:+ x.2) <$> (e :: es)) ∧
    Forall well_formed_fields (e :: es).
Proof.
  intros Hrow. rewrite (_format_chapters_row _ _ _ _ _ Hrow).
  rewrite format_with_extract.
  destruct (extract_records m_color lines) as [es|] eqn:Hx; [|done].
  intros [= <-]. apply extract_records_well_formed in Hx.
  destruct es as [|e es]; [by left|]. right. exists e, es. by rewrite render_cons.
Qed.

Lemma returned_text_shape_witness :
  db_default !! 7%Z = Some (mkRow "Blue" "-") ∧
  _format_chapters 7 ["H1"; "H2"; "H3"; "00:01:23:00";
                      "...|M:Intro |D:...C:ResolveColorBlue..."; "skip"] db_default
    = (Ok (header +:+ nl +:+ "00:01:23 - Intro"), db_default) ∧
  (header +:+ nl +:+ "00:01:23 - Intro" = "" ∨
   ∃ e es,
     header +:+ nl +:+ "00:01:23 - Intro"
     = header +:+ nl +:+
       join nl ((λ x, x.1 +:+ " " +:+ "-" +:+ " " +:+ x.2) <$> (e :: es)) ∧
     Forall well_formed_fields (e :: es)).
Proof.
  split; [reflexivity|]. split; [reflexivity|].
  apply (returned_text_shape db_default 7%Z "Blue" "-"
           ["H1"; "H2"; "H3"; "00:01:23:00";
            "...|M:Intro |D:...C:ResolveColorBlue..."; "skip"]); reflexivity.
Defined.

(** X3: when the loop gets through, the chapters are exactly what the
    records of the requested color give: [(t, l)] is among them if and only
    if some index [i = 3, 6, 9, ...] has the color tag in line [i+1], [t] as
    the first timestamp of line [i] and [l] as the first label of line
    [i+1]. *)
Theorem chapters_are_the_matching_records
    (db : gmap Z Row) (user_id : Z) (m_color c_separator : string)
    (lines : list string) :
  db !! user_id = Some (mkRow m_color c_separator) →
  6 ≤ length lines →
  length lines mod 3 ≠ 1 →
  ∃ es,
    _format_chapters user_id lines db = (Ok (render c_separator es), db) ∧
    ∀ t l, (t, l) ∈ es ↔
           ∃ i, 3 ≤ i ∧ i mod 3 = 0 ∧ record_gives m_color lines i t l.
Proof.
  intros Hrow Hn Hm. rewrite (_format_chapters_row _ _ _ _ _ Hrow).
  eexists. split; [by rewrite format_with_returns|].
  intros t l. rewrite list_elem_of_omap. split.
  - intros (i & (H3 & _ & Hz)%elem_of_range3 & Hf%fields_at_spec). eauto.
  - intros (i & H3 & Hz & Hg). exists i. split; [|by apply fields_at_spec].
    apply elem_of_range3. destruct Hg as (line & meta & Hl & _).
    apply lookup_lt_Some in Hl. done.
Qed.

Lemma chapters_are_the_matching_records_witness :
  db_default !! 7%Z = Some (mkRow "Blue" "-") ∧
  6 ≤ length ["H1"; "H2"; "H3"; "00:01:23:00";
              "...|M:Intro |D:...C:ResolveColorBlue..."; "skip"] ∧
  length ["H1"; "H2"; "H3"; "00:01:23:00";
          "...|M:Intro |D:...C:ResolveColorBlue..."; "skip"] mod 3 ≠ 1 ∧
  ∃ es,
    _format_chapters 7 ["H1"; "H2"; "H3"; "00:01:23:00";
                        "...|M:Intro |D:...C:ResolveColorBlue..."; "skip"]
                     db_default
      = (Ok (render "-" es), db_default) ∧
    ∀ t l, (t, l) ∈ es ↔
           ∃ i, 3 ≤ i ∧ i mod 3 = 0 ∧
                record_gives "Blue" ["H1"; "H2"; "H3"; "00:01:23:00";
                                     "...|M:Intro |D:...C:ResolveColorBlue...";
                                     "skip"] i t l.
Proof.
  split; [reflexivity|]. split; [simpl; lia|]. split; [by vm_compute|].
  apply (chapters_are_the_matching_records db_default 7%Z "Blue" "-");
    [reflexivity|simpl; lia|by vm_compute].
Defined.

(** X4: the third line of the last record is optional. From six lines on,
    a file that ends after a metadata line gives the same outcome as the
    file with one more line after it. *)
Theorem last_third_line_optional
    (db : gmap Z Row) (user_id : Z) (lines : list string) (x : string) :
  6 ≤ length lines →
  length lines mod 3 = 2 →
  _format_chapters user_id (lines ++ [x]) db = _format_chapters user_id lines db.
Proof.
  intros Hn Hm. destruct (db !! user_id) as [[c sep]|] eqn:Hrow;
    [|by rewrite !(_format_chapters_no_row _ _ _ Hrow)].
  rewrite !(_format_chapters_row _ _ _ _ _ Hrow), !format_with_extract.
  by rewrite extract_records_third_line.
Qed.

Lemma last_third_line_optional_witness :
  6 ≤ length ["TITLE: Timeline 1"; "FCM: NON-DROP FRAME"; "";
              "001  001  V  C  01:00:10:00 01:00:10:01";
              " |C:ResolveColorRed |M:Cut here |D:1"; "";
              "002  001  V  C  01:02:03:04 01:02:03:05";
              " |C:ResolveColorBlue |M:Part two |D:1"] ∧
  length ["TITLE: Timeline 1"; "FCM: NON-DROP FRAME"; "";
          "001  001  V  C  01:00:10:00 01:00:10:01";
          " |C:ResolveColorRed |M:Cut here |D:1"; "";
          "002  001  V  C  01:02:03:04 01:02:03:05";
          " |C:ResolveColorBlue |M:Part two |D:1"] mod 3 = 2 ∧
  _format_chapters 7
    (["TITLE: Timeline 1"; "FCM: NON-DROP FRAME"; "";
      "001  001  V  C  01:00:10:00 01:00:10:01";
      " |C:ResolveColorRed |M:Cut here |D:1"; "";
      "002  001  V  C  01:02:03:04 01:02:03:05";
      " |C:ResolveColorBlue |M:Part two |D:1"] ++ [""]) db_default
  = _format_chapters 7
      ["TITLE: Timeline 1"; "FCM: NON-DROP FRAME"; "";
       "001  001  V  C  01:00:10:00 01:00:10:01";
       " |C:ResolveColorRed |M:Cut here |D:1"; "";
       "002  001  V  C  01:02:03:04 01:02:03:05";
       " |C:ResolveColorBlue |M:Part two |D:1"] db_default.
Proof.
  split; [simpl; lia|]. split; [reflexivity|].
  apply last_third_line_optional; [simpl; lia|reflexivity].
Defined.

(** X5: the records are handled one by one. Appending a whole record
    [t; m; x] to a file of whole triplets leaves the text as it was when the
    record is not kept, and otherwise adds its one line at the end, after
    the header when it is the first. *)
Theorem appending_a_record
    (db : gmap Z Row) (user_id : Z) (m_color c_separator : string)
    (lines : list string) (t m x : string) :
  db !! user_id = Some (mkRow m_color c_separator) →
  6 ≤ length lines →
  length lines mod 3 = 0 →
  ∃ out,
    _format_chapters user_id lines db = (Ok out, db) ∧
    _format_chapters user_id (lines ++ [t; m; x]) db
    = (Ok match record_fields m_color t m with
          | None => out
          | Some e =>
              match out with
              | EmptyString => header
              | _ => out
              end +:+ nl +:+ e.1 +:+ " " +:+ c_separator +:+ " " +:+ e.2
          end, db).
Proof.
  intros Hrow Hn Hm. rewrite !(_format_chapters_row _ _ _ _ _ Hrow).
  eexists. split; [by rewrite format_with_returns by (done || lia)|].
  rewrite format_with_extract, extract_records_snoc by done. cbn [fmap result_fmap].
  destruct (record_fields m_color t m) as [e|].
  - change (option_list (Some e)) with [e]. by rewrite render_snoc.
  - change (option_list (@None (string * string))) with (@nil (string * string)).
    by rewrite app_nil_r.
Qed.

Lemma appending_a_record_witness :
  db_default !! 7%Z = Some (mkRow "Blue" "-") ∧
  6 ≤ length ["TITLE: Timeline 1"; "FCM: NON-DROP FRAME"; "";
              "001  001  V  C  01:00:10:00 01:00:10:01";
              " |C:ResolveColorRed |M:Cut here |D:1"; ""] ∧
  length ["TITLE: Timeline 1"; "FCM: NON-DROP FRAME"; "";
          "001  001  V  C  01:00:10:00 01:00:10:01";
          " |C:ResolveColorRed |M:Cut here |D:1"; ""] mod 3 = 0 ∧
  ∃ out,
    _format_chapters 7
      ["TITLE: Timeline 1"; "FCM: NON-DROP FRAME"; "";
       "001  001  V  C  01:00:10:00 01:00:10:01";
       " |C:ResolveColorRed |M:Cut here |D:1"; ""] db_default
    = (Ok out, db_default) ∧
    _format_chapters 7
      (["TITLE: Timeline 1"; "FCM: NON-DROP FRAME"; "";
        "001  001  V  C  01:00:10:00 01:00:10:01";
        " |C:ResolveColorRed |M:Cut here |D:1"; ""]
       ++ ["002  001  V  C  01:02:03:04 01:02:03:05";
           " |C:ResolveColorBlue |M:Part two |D:1"; ""]) db_default
    = (Ok match record_fields "Blue" "002  001  V  C  01:02:03:04 01:02:03:05"
                  " |C:ResolveColorBlue |M:Part two |D:1" with
          | None => out
          | Some e =>
              match out with
              | EmptyString => header
              | _ => out
              end +:+ nl +:+ e.1 +:+ " " +:+ "-" +:+ " " +:+ e.2
          end, db_default).
Proof.
  split; [reflexivity|]. split; [simpl; lia|]. split; [reflexivity|].
  apply (appending_a_record db_default 7%Z "Blue" "-");
    [reflexivity|simpl; lia|reflexivity].
Defined.

(* ===================================================================== *)
(** ** The stored preferences                                             *)
(* ===================================================================== *)

(** X6: after [add_user], as [function_setup] calls it before every
    handler, the user has a row: the one that was there, or the defaults
    [Blue] and [-] for a new user; no other row changes, and
    [_format_chapters] reads these preferences and so raises no
    [TypeError]. *)
Theorem added_user_has_preferences
    (db : gmap Z Row) (user_id : Z) (lines : list string) :
  let db' := (add_user user_id db).2 in
  let row := default default_row (db !! user_id) in
  db' !! user_id = Some row ∧
  (∀ u, u ≠ user_id → db' !! u = db !! u) ∧
  (add_user user_id db').2 = db' ∧
  _format_chapters user_id lines db'
    = (format_with (m_color row) (c_separator row) lines, db').
Proof.
  cbn zeta. unfold add_user. cbn [snd].
  assert ((match db !! user_id with
           | Some _ => db
           | None => <[user_id:=default_row]> db
           end) !! user_id = Some (default default_row (db !! user_id))) as Hrow.
  { destruct (db !! user_id) as [r|] eqn:Hr; [done|]. by rewrite lookup_insert_eq. }
  split; [done|]. split; [|split].
  - intros u Hu. destruct (db !! user_id); [done|]. by rewrite lookup_insert_ne.
  - by rewrite Hrow.
  - destruct (default default_row (db !! user_id)) as [c sep] eqn:Hd.
    by apply _format_chapters_row.
Qed.

(** X7: choosing a color changes the color of that user's row and nothing
    else: the separator stays, the other users' rows stay, and the next
    [_format_chapters] filters with the new color and the old separator. *)
Theorem color_update_is_read_back
    (db : gmap Z Row) (user_id : Z) (c : string) (row : Row)
    (lines : list string) :
  db !! user_id = Some row →
  let db' := (update_markers_color user_id c db).2 in
  db' !! user_id = Some (mkRow c (c_separator row)) ∧
  (∀ u, u ≠ user_id → db' !! u = db !! u) ∧
  _format_chapters user_id lines db'
    = (format_with c (c_separator row) lines, db').
Proof.
  intros Hrow. cbn zeta. unfold update_markers_color. cbn [snd].
  assert (alter (λ r, mkRow c (c_separator r)) user_id db !! user_id
          = Some (mkRow c (c_separator row))) as Hnew.
  { by rewrite lookup_alter_eq, Hrow. }
  split; [done|]. split.
  - intros u Hu. by rewrite lookup_alter_ne.
  - by apply _format_chapters_row.
Qed.

Lemma color_update_is_read_back_witness :
  db_default !! 7%Z = Some (mkRow "Blue" "-") ∧
  (let db' := (update_markers_color 7 "Red" db_default).2 in
   db' !! 7%Z = Some (mkRow "Red" (c_separator (mkRow "Blue" "-"))) ∧
   (∀ u, u ≠ 7%Z → db' !! u = db_default !! u) ∧
   _format_chapters 7 ["H1"; "H2"; "H3"; "00:01:23:00";
                       " |C:ResolveColorRed |M:Intro |D:1"; ""] db'
     = (format_with "Red" (c_separator (mkRow "Blue" "-"))
          ["H1"; "H2"; "H3"; "00:01:23:00";
           " |C:ResolveColorRed |M:Intro |D:1"; ""], db')).
Proof.
  split; [reflexivity|].
  apply (color_update_is_read_back db_default 7%Z "Red" (mkRow "Blue" "-")).
  reflexivity.
Defined.

(** X8: choosing a separator changes the separator of that user's row and
    nothing else, and the next [_format_chapters] writes the new separator
    with the color as it was. *)
Theorem separator_update_is_read_back
    (db : gmap Z Row) (user_id : Z) (sep : string) (row : Row)
    (lines : list string) :
  db !! user_id = Some row →
  let db' := (update_chapters_separator user_id sep db).2 in
  db' !! user_id = Some (mkRow (m_color row) sep) ∧
  (∀ u, u ≠ user_id → db' !! u = db !! u) ∧
  _format_chapters user_id lines db'
    = (format_with (m_color row) sep lines, db').
Proof.
  intros Hrow. cbn zeta. unfold update_chapters_separator. cbn [snd].
  assert (alter (λ r, mkRow (m_color r) sep) user_id db !! user_id
          = Some (mkRow (m_color row) sep)) as Hnew.
  { by rewrite lookup_alter_eq, Hrow. }
  split; [done|]. split.
  - intros u Hu. by rewrite lookup_alter_ne.
  - by apply _format_chapters_row.
Qed.

Lemma separator_update_is_read_back_witness :
  db_default !! 7%Z = Some (mkRow "Blue" "-") ∧
  (let db' := (update_chapters_separator 7 "|" db_default).2 in
   db' !! 7%Z = Some (mkRow (m_color (mkRow "Blue" "-")) "|") ∧
   (∀ u, u ≠ 7%Z → db' !! u = db_default !! u) ∧
   _format_chapters 7 ["H1"; "H2"; "H3"; "00:01:23:00";
                       " |C:ResolveColorBlue |M:Intro |D:1"; ""] db'
     = (format_with (m_color (mkRow "Blue" "-")) "|"
          ["H1"; "H2"; "H3"; "00:01:23:00";
           " |C:ResolveColorBlue |M:Intro |D:1"; ""], db')).
Proof.
  split; [reflexivity|].
  apply (separator_update_is_read_back db_default 7%Z "|" (mkRow "Blue" "-")).
  reflexivity.
Defined.

(** X9: the two preferences are independent and the last choice wins:
    color and separator can be set in either order with the same table as
    a result, and setting a preference twice leaves the second value. *)
Theorem preference_updates_compose
    (db : gmap Z Row) (user_id : Z) (c c' sep sep' : string) :
  (update_chapters_separator user_id sep (update_markers_color user_id c db).2).2
  = (update_markers_color user_id c (update_chapters_separator user_id sep db).2).2 ∧
  (update_markers_color user_id c' (update_markers_color user_id c db).2).2
  = (update_markers_color user_id c' db).2 ∧
  (update_chapters_separator user_id sep'
     (update_chapters_separator user_id sep db).2).2
  = (update_chapters_separator user_id sep' db).2.
Proof.
  unfold update_markers_color, update_chapters_separator. cbn [snd].
  repeat split; apply map_eq; intros u;
    (destruct (decide (u = user_id)) as [->|Hu];
     [rewrite !lookup_alter_eq; by destruct (db !! user_id)
     |by rewrite !lookup_alter_ne]).
Qed.

(** X10: only [add_user] creates a row. For a user without one both
    updates leave the table as it is, and [_format_chapters] raises
    [TypeError] whatever the lines are, also for fewer than six, since the
    preferences are read first. *)
Theorem no_row_no_preferences
    (db : gmap Z Row) (user_id : Z) (c sep : string) (lines : list string) :
  db !! user_id = None →
  (update_markers_color user_id c db).2 = db ∧
  (update_chapters_separator user_id sep db).2 = db ∧
  _format_chapters user_id lines db = (Raise TypeError, db).
Proof.
  intros Hrow. unfold update_markers_color, update_chapters_separator. cbn [snd].
  split; [|split].
  - apply map_eq. intros u. destruct (decide (u = user_id)) as [->|Hu].
    + by rewrite lookup_alter_eq, Hrow.
    + by rewrite lookup_alter_ne.
  - apply map_eq. intros u. destruct (decide (u = user_id)) as [->|Hu].
    + by rewrite lookup_alter_eq, Hrow.
    + by rewrite lookup_alter_ne.
  - by apply _format_chapters_no_row.
Qed.

Lemma no_row_no_preferences_witness :
  db_default !! 8%Z = None ∧
  (update_markers_color 8 "Red" db_default).2 = db_default ∧
  (update_chapters_separator 8 "|" db_default).2 = db_default ∧
  _format_chapters 8 ["H1"; "H2"] db_default = (Raise TypeError, db_default).
Proof.
  split; [reflexivity|].
  apply (no_row_no_preferences db_default 8%Z "Red" "|"). reflexivity.
Defined.

(* ===================================================================== *)
(** ** The color menu                                                     *)
(* ===================================================================== *)

Module MenuFacts.
Import PyStr Re Db Chapters ChaptersFacts Telegram Handlers HandlersSpec.

Lemma pair_induction {A : Type} (P : list A → Prop) :
  P [] → (∀ a, P [a]) → (∀ a b l, P l → P (a :: b :: l)) → ∀ l, P l.
Proof.
  intros Hnil Hone Hstep l.
  enough (P l ∧ ∀ a, P (a :: l)) as [H _] by done.
  induction l as [|b l [IH1 IH2]]; [by split|]. split; [apply IH2|].
  intros a. by apply Hstep.
Qed.

Lemma color_rows_unfold colors :
  color_rows colors = mapM (row_at colors) (range 0 (length colors) 2).
Proof. done. Qed.

Lemma range0_even n :
  n mod 2 = 0 → range 0 n 2 = (λ k, k * 2) <$> seq 0 (n / 2).
Proof.
  intros Hm. unfold range. change (2 - 1) with 1.
  pose proof (Nat.div_mod_eq n 2) as Hd.
  rewrite <- (Nat.div_unique (n - 0 + 1) 2 (n / 2) 1) by lia. done.
Qed.

Lemma range0_odd n :
  n mod 2 = 1 → range 0 n 2 = (λ k, k * 2) <$> seq 0 (n / 2 + 1).
Proof.
  intros Hm. unfold range. change (2 - 1) with 1.
  pose proof (Nat.div_mod_eq n 2) as Hd.
  rewrite <- (Nat.div_unique (n - 0 + 1) 2 (n / 2 + 1) 0) by lia. done.
Qed.

(** Reading the colors by index from [length pre] on is reading [rest] two
    by two. *)
Lemma mapM_rows : ∀ rest pre,
  length rest mod 2 = 0 →
  mapM (row_at (pre ++ rest))
       ((λ k, length pre + k * 2) <$> seq 0 (length rest / 2))
  = Ok (pairs rest).
Proof.
  induction rest as [| a | a b rest IH] using pair_induction; intros pre Hm.
  - done.
  - done.
  - change (length (a :: b :: rest)) with (2 + length rest) in *.
    assert (length rest mod 2 = 0) as Hm'.
    { by rewrite <- (Nat.Div0.mod_add _ 1), Nat.add_comm. }
    replace ((2 + length rest) / 2) with (S (length rest / 2)).
    2:{ replace (2 + length rest) with (length rest + 1 * 2) by lia.
        rewrite Nat.div_add by done. lia. }
    assert (row_at (pre ++ a :: b :: rest) (length pre)
            = Ok [color_button a; color_button b]) as Hrow.
    { unfold row_at, getitem.
      rewrite (lookup_app_r pre) by lia.
      rewrite (lookup_app_r pre) by lia.
      replace (length pre - length pre) with 0 by lia.
      by replace (length pre + 1 - length pre) with 1 by lia. }
    cbn [seq fmap list_fmap mapM]. rewrite <- fmap_S_seq, <- list_fmap_compose.
    rewrite Nat.mul_0_l, Nat.add_0_r, Hrow.
    specialize (IH (pre ++ [a; b]) Hm').
    rewrite <- app_assoc in IH. cbn [app] in IH.
    erewrite list_fmap_ext; [rewrite IH; done|].
    intros _ k _. cbn. rewrite length_app. cbn. lia.
Qed.

Lemma color_rows_even colors :
  length colors mod 2 = 0 → color_rows colors = Ok (pairs colors).
Proof.
  intros Hm. rewrite color_rows_unfold, range0_even by done.
  by apply (mapM_rows colors []).
Qed.

Lemma row_at_outcome colors i :
  (∃ row, row_at colors i = Ok row) ∨ row_at colors i = Raise IndexError.
Proof.
  unfold row_at, getitem.
  destruct (colors !! i); [|by right]. destruct (colors !! (i + 1)); [|by right].
  left. eauto.
Qed.

Lemma mapM_rows_raise colors : ∀ idx i,
  i ∈ idx → length colors ≤ i + 1 →
  mapM (row_at colors) idx = Raise IndexError.
Proof.
  induction idx as [|j idx IH]; intros i Hin Hi; [by inversion Hin|].
  cbn [mapM]. destruct (row_at_outcome colors j) as [[row Hrow]|Hrow];
    rewrite Hrow; [|done]. cbn.
  apply elem_of_cons in Hin as [->|Hin].
  - unfold row_at, getitem in Hrow.
    rewrite (lookup_ge_None_2 colors (j + 1)) in Hrow by done.
    by destruct (colors !! j).
  - by rewrite (IH i).
Qed.

Lemma color_rows_odd colors :
  length colors mod 2 = 1 → color_rows colors = Raise IndexError.
Proof.
  intros Hm. rewrite color_rows_unfold, range0_odd by done.
  pose proof (Nat.div_mod_eq (length colors) 2) as Hd.
  apply (mapM_rows_raise _ _ (length colors / 2 * 2)); [|lia].
  apply list_elem_of_fmap. exists (length colors / 2). split; [done|].
  apply elem_of_seq. lia.
Qed.

Lemma pairs_concat colors :
  length colors mod 2 = 0 → concat (pairs colors) = color_button <$> colors.
Proof.
  induction colors as [| a | a b rest IH] using pair_induction; intros Hm.
  - done.
  - done.
  - cbn. rewrite IH; [done|].
    change (length (a :: b :: rest)) with (2 + length rest) in Hm.
    by rewrite <- (Nat.Div0.mod_add _ 1), Nat.add_comm.
Qed.

Lemma pairs_length colors :
  length colors mod 2 = 0 → length (pairs colors) = length colors / 2.
Proof.
  induction colors as [| a | a b rest IH] using pair_induction; intros Hm.
  - done.
  - done.
  - change (length (a :: b :: rest)) with (2 + length rest) in *.
    assert (length rest mod 2 = 0) as Hm'.
    { by rewrite <- (Nat.Div0.mod_add _ 1), Nat.add_comm. }
    cbn [pairs length]. rewrite IH by done.
    replace (2 + length rest) with (length rest + 1 * 2) by lia.
    rewrite Nat.div_add by done. lia.
Qed.

Lemma pairs_rows colors : Forall (λ row, length row = 2) (pairs colors).
Proof.
  induction colors as [| a | a b rest IH] using pair_induction;
    by repeat constructor.
Qed.

End MenuFacts.

(* ===================================================================== *)
(** ** The handlers                                                       *)
(* ===================================================================== *)

Module HandlersFacts.
Import PyStr Re Db Chapters ChaptersFacts Telegram Handlers HandlersSpec MenuFacts.

(** Runs the monad of the handlers on a world given by its fields. *)
Ltac hsimpl :=
  cbv [mbind handler_bind mret handler_ret throw call attribute
       virtual_memory_free from_bot from_result try_finally
       download_to_drive unlink_if_exists readlines
       message_update anonymous_update after_reply
       callback_query message effective_message effective_user
       document file_name download_path download_lines
       db sent disk free_memory fst snd negb default] in *.

Section WithConfig.

Variable config : Config.
Variable path_suffix : string → string.

Lemma add_user_lookup (tbl : gmap Z Row) user_id :
  (add_user user_id tbl).2 !! user_id
  = Some (default default_row (tbl !! user_id)).
Proof.
  unfold add_user. cbn [snd].
  destruct (tbl !! user_id) as [r|] eqn:Hr; [done|]. by rewrite lookup_insert_eq.
Qed.

Lemma _create_reply_keyboard_row (tbl : gmap Z Row) user_id row :
  tbl !! user_id = Some row →
  _create_reply_keyboard config user_id tbl = (Ok (keyboard_of config row), tbl).
Proof.
  intros Hrow. unfold _create_reply_keyboard, get_choices, mbind, bot_bind.
  by rewrite Hrow.
Qed.

Lemma _format_chapters_table (tbl : gmap Z Row) user_id lines :
  (_format_chapters user_id lines tbl).2 = tbl.
Proof.
  destruct (tbl !! user_id) as [[c sep]|] eqn:Hrow.
  - by rewrite (_format_chapters_row _ _ _ _ _ Hrow).
  - by rewrite (_format_chapters_no_row _ _ _ Hrow).
Qed.

Lemma disk_after_unlink (d : gset string) (p : string) :
  ({[p]} ∪ d) ∖ {[p]} = d ∖ {[p]}.
Proof.
  apply set_eq. intros x.
  rewrite !elem_of_difference, elem_of_union, elem_of_singleton. tauto.
Qed.

Lemma _process_edl_file_spec user_id file w :
  _process_edl_file user_id file w
  = (parse_outcome user_id file (db w),
     mkWorld (db w) (sent w) (disk w ∖ {[download_path file]}) (free_memory w)).
Proof.
  destruct w as [tbl snt dsk free], file as [name path content].
  unfold _process_edl_file, parse_outcome. hsimpl.
  destruct content as [lines|]; [|by rewrite disk_after_unlink].
  pose proof (_format_chapters_table tbl user_id lines) as Htbl.
  destruct (_format_chapters user_id lines tbl) as [[out|e] tbl'];
    cbn in Htbl; subst tbl'; by rewrite disk_after_unlink.
Qed.

Lemma send_reply_message w user_id msg row text markup :
  user_id ≠ 0%Z → db w !! user_id = Some row →
  send_reply config (message_update user_id msg) text markup w
  = (Returned tt,
     after_reply w (db w) (disk w) msg text (default (keyboard_of config row) markup)).
Proof.
  intros Hid Hrow. destruct w as [tbl snt dsk free].
  unfold send_reply. hsimpl.
  destruct (Z.eqb_spec user_id 0) as [|_]; [done|].
  by rewrite (_create_reply_keyboard_row _ _ _ Hrow).
Qed.

Lemma _free_memory_check_enough user_id msg w :
  (RAM_THRESHOLD config * 1024 ^ 2 ≤ free_memory w)%Z →
  _free_memory_check config (message_update user_id msg) w = (Returned true, w).
Proof.
  intros Hmem. destruct w as [tbl snt dsk free].
  unfold _free_memory_check. hsimpl.
  by destruct (Z.ltb_spec free (RAM_THRESHOLD config * 1024 ^ 2)); [lia|].
Qed.

Lemma _free_memory_check_low user_id msg row w :
  (free_memory w < RAM_THRESHOLD config * 1024 ^ 2)%Z →
  user_id ≠ 0%Z → db w !! user_id = Some row →
  _free_memory_check config (message_update user_id msg) w
  = (Returned false,
     after_reply w (db w) (disk w) msg (RAM_FULL_MESSAGE config)
       (keyboard_of config row)).
Proof.
  intros Hmem Hid Hrow.
  pose proof (send_reply_message w user_id msg row (RAM_FULL_MESSAGE config) None
                Hid Hrow) as Hsend.
  destruct w as [tbl snt dsk free].
  unfold _free_memory_check. hsimpl.
  destruct (Z.ltb_spec free (RAM_THRESHOLD config * 1024 ^ 2)); [|lia].
  by rewrite Hsend.
Qed.

Lemma upload_file_edl w user_id chat txt name path content row :
  user_id ≠ 0%Z → db w !! user_id = Some row →
  path_suffix name = ".edl" →
  (RAM_THRESHOLD config * 1024 ^ 2 ≤ free_memory w)%Z →
  let file := mkDocument (Some name) path content in
  let msg := mkMessage chat txt (Some file) in
  upload_file config path_suffix (message_update user_id msg) w
  = match parse_outcome user_id file (db w) with
    | Returned out =>
        (Returned return_None,
         after_reply w (db w) (disk w ∖ {[path]}) msg
           (if String.eqb out "" then EDL_FILE_ERROR_MESSAGE config else out)
           (keyboard_of config row))
    | Raised e =>
        (Raised e, mkWorld (db w) (sent w) (disk w ∖ {[path]}) (free_memory w))
    end.
Proof.
  intros Hid Hrow Hsuf Hmem file msg.
  pose proof (_free_memory_check_enough user_id msg w Hmem) as Hcheck.
  pose proof (_process_edl_file_spec user_id file w) as Hproc.
  assert (∀ text,
            send_reply config (message_update user_id msg) text None
              (mkWorld (db w) (sent w) (disk w ∖ {[path]}) (free_memory w))
            = (Returned tt, after_reply w (db w) (disk w ∖ {[path]}) msg text
                              (keyboard_of config row))) as Hsend.
  { intros text. by rewrite (send_reply_message _ user_id msg row). }
  subst file msg. destruct w as [tbl snt dsk free].
  unfold upload_file. hsimpl. rewrite Hcheck. hsimpl. rewrite Hsuf.
  change ((".edl" =? ".edl")%string) with true. hsimpl.
  rewrite Hproc.
  destruct (parse_outcome _ _ _) as [out|e]; [|done].
  destruct (String.eqb out ""); by rewrite Hsend.
Qed.

Lemma upload_file_other w user_id chat txt name file row :
  user_id ≠ 0%Z → db w !! user_id = Some row →
  file_name file = Some name →
  path_suffix name ≠ ".edl" →
  (RAM_THRESHOLD config * 1024 ^ 2 ≤ free_memory w)%Z →
  let msg := mkMessage chat txt (Some file) in
  upload_file config path_suffix (message_update user_id msg) w
  = (Returned return_None,
     after_reply w (db w) (disk w) msg (UPLOAD_EDL_FILE_MESSAGE config)
       (keyboard_of config row)).
Proof.
  intros Hid Hrow Hname Hsuf Hmem msg.
  pose proof (_free_memory_check_enough user_id msg w Hmem) as Hcheck.
  pose proof (send_reply_message w user_id msg row
                (UPLOAD_EDL_FILE_MESSAGE config) None Hid Hrow) as Hsend.
  subst msg. destruct w as [tbl snt dsk free], file as [fname path content].
  cbn in Hname. subst fname.
  unfold upload_file. hsimpl. rewrite Hcheck. hsimpl.
  destruct (String.eqb_spec (path_suffix name) ".edl") as [|_]; [done|].
  by rewrite Hsend.
Qed.

Lemma upload_file_low w user_id msg row :
  user_id ≠ 0%Z → db w !! user_id = Some row →
  (free_memory w < RAM_THRESHOLD config * 1024 ^ 2)%Z →
  upload_file config path_suffix (message_update user_id msg) w
  = (Returned return_None,
     after_reply w (db w) (disk w) msg (RAM_FULL_MESSAGE config)
       (keyboard_of config row)).
Proof.
  intros Hid Hrow Hmem.
  pose proof (_free_memory_check_low user_id msg row w Hmem Hid Hrow) as Hcheck.
  destruct w as [tbl snt dsk free].
  unfold upload_file. hsimpl. by rewrite Hcheck.
Qed.

(** The two decorators around a handler, on a message of a user. *)
Lemma decorated_message func w user_id msg :
  user_id ≠ 0%Z →
  let w1 := mkWorld (add_user user_id (db w)).2 (sent w) (disk w) (free_memory w) in
  handle_errors config (function_setup func) (message_update user_id msg) w
  = match func (message_update user_id msg) w1 with
    | (Returned r, w2) => (Returned r, w2)
    | (Raised _, w2) =>
        match db w2 !! user_id with
        | Some row2 =>
            (Returned END,
             after_reply w2 (db w2) (disk w2) msg (ERROR_MESSAGE config)
               (keyboard_of config row2))
        | None =>
            (Raised (Exn TypeError),
             mkWorld (db w2) (sent w2) (disk w2) (free_memory w2))
        end
    end.
Proof.
  intros Hid w1. subst w1. destruct w as [tbl snt dsk free].
  unfold handle_errors, function_setup, add_user. hsimpl.
  destruct (func _ _) as [[r|e] [tbl2 snt2 dsk2 free2]]; [done|]. cbv beta iota.
  destruct (tbl2 !! user_id) as [row2|] eqn:Hrow2.
  - by rewrite (send_reply_message (mkWorld tbl2 snt2 dsk2 free2) user_id msg row2).
  - unfold send_reply. hsimpl.
    destruct (Z.eqb_spec user_id 0) as [|_]; [done|].
    unfold _create_reply_keyboard, get_choices, mbind, bot_bind.
    by rewrite Hrow2.
Qed.


(** The decorators on an update without a user: the reply of the error
    handler itself fails. *)
Lemma decorated_anonymous func w u :
  callback_query u = None → effective_user u = None →
  handle_errors config (function_setup func) u w
  = match func u w with
    | (Returned r, w2) => (Returned r, w2)
    | (Raised _, w2) => (Raised AttributeError, w2)
    end.
Proof.
  intros Hq Hu. destruct u as [q m em eu]. cbn in Hq, Hu. subst q eu.
  unfold handle_errors, function_setup. hsimpl.
  destruct (func _ w) as [[r|e] w2]; [done|].
  unfold send_reply. by hsimpl.
Qed.

Lemma upload_file_anonymous w u :
  effective_user u = None →
  upload_file config path_suffix u w = (Raised AttributeError, w).
Proof.
  intros Hu. destruct u as [q m em eu], w as [tbl snt dsk free].
  cbn in Hu. subst eu. unfold upload_file, _free_memory_check. by hsimpl.
Qed.

Lemma inline_keyboard_even colors :
  length colors mod 2 = 0 → inline_keyboard colors = Ok (pairs colors).
Proof.
  intros Hm. unfold inline_keyboard. rewrite color_rows_even by done.
  cbn [mbind result_bind]. by rewrite Hm.
Qed.

Lemma inline_keyboard_odd colors :
  length colors mod 2 = 1 → inline_keyboard colors = Raise IndexError.
Proof.
  intros Hm. unfold inline_keyboard. by rewrite color_rows_odd.
Qed.

Lemma change_markers_color_even w user_id msg row :
  user_id ≠ 0%Z → db w !! user_id = Some row →
  length (M_COLORS config) mod 2 = 0 →
  change_markers_color config (message_update user_id msg) w
  = (Returned CHANGE_MARKERS_COLOR,
     after_reply w (db w) (disk w) msg (SELECT_MARKERS_COLOR_MESSAGE config)
       (InlineKeyboardMarkup (pairs (M_COLORS config)))).
Proof.
  intros Hid Hrow Hm.
  pose proof (send_reply_message w user_id msg row
                (SELECT_MARKERS_COLOR_MESSAGE config)
                (Some (InlineKeyboardMarkup (pairs (M_COLORS config))))
                Hid Hrow) as Hsend.
  destruct w as [tbl snt dsk free].
  unfold change_markers_color. rewrite inline_keyboard_even by done.
  hsimpl. unfold Db.lift. hsimpl. by rewrite Hsend.
Qed.

Lemma change_markers_color_odd w u :
  length (M_COLORS config) mod 2 = 1 →
  change_markers_color config u w = (Raised (Exn IndexError), w).
Proof.
  intros Hm. destruct w as [tbl snt dsk free].
  unfold change_markers_color. rewrite inline_keyboard_odd by done.
  hsimpl. unfold Db.lift. by hsimpl.
Qed.

End WithConfig.

End HandlersFacts.

Import Telegram Handlers HandlersSpec MenuFacts HandlersFacts.

(** X11: with an even number of colors the inline keyboard of
    [change_markers_color_command] has one row per two colors, each row has
    two buttons, and the buttons read row by row are the colors in order,
    each with its own name as [callback_data]. *)
Theorem color_menu_even (colors : list string) :
  length colors mod 2 = 0 →
  ∃ rows,
    inline_keyboard colors = Ok rows ∧
    length rows = length colors / 2 ∧
    Forall (λ row, length row = 2) rows ∧
    concat rows = (λ c, mkButton c c) <$> colors.
Proof.
  intros Hm. exists (pairs colors). split; [by apply inline_keyboard_even|].
  split; [by apply pairs_length|]. split; [apply pairs_rows|].
  by apply pairs_concat.
Qed.

Lemma color_menu_even_witness :
  length ["Blue"; "Red"; "Green"; "Yellow"] mod 2 = 0 ∧
  ∃ rows,
    inline_keyboard ["Blue"; "Red"; "Green"; "Yellow"] = Ok rows ∧
    length rows = length ["Blue"; "Red"; "Green"; "Yellow"] / 2 ∧
    Forall (λ row, length row = 2) rows ∧
    concat rows = (λ c, mkButton c c) <$> ["Blue"; "Red"; "Green"; "Yellow"].
Proof.
  split; [reflexivity|]. apply color_menu_even. reflexivity.
Defined.

(** X12: with an odd number of colors the list comprehension reads
    [colors[i+1]] past the end and raises [IndexError] before the branch
    for the odd color is reached; the decorated command then sends
    [ERROR_MESSAGE] instead of the menu and ends the conversation. *)
Theorem color_menu_odd
    (config : Config) (w : World) (user_id : Z) (msg : Message) :
  user_id ≠ 0%Z →
  length (M_COLORS config) mod 2 = 1 →
  inline_keyboard (M_COLORS config) = Raise IndexError ∧
  change_markers_color_command config (message_update user_id msg) w
  = (Returned END,
     after_reply w (add_user user_id (db w)).2 (disk w) msg (ERROR_MESSAGE config)
       (keyboard_of config (default default_row (db w !! user_id)))).
Proof.
  intros Hid Hm. split; [by apply inline_keyboard_odd|].
  unfold change_markers_color_command.
  rewrite decorated_message by done. cbn zeta.
  rewrite change_markers_color_odd by done. cbn [Handlers.db].
  by rewrite add_user_lookup.
Qed.

Lemma color_menu_odd_witness :
  7%Z ≠ 0%Z ∧
  length (M_COLORS (mkConfig ["Blue"; "Red"; "Green"] "Markers color"
                      "Chapters separator" "Help" 100 "Something went wrong"
                      "Not enough memory" "Choose a color"
                      "The file could not be parsed" "Send an .edl file")) mod 2 = 1 ∧
  inline_keyboard
    (M_COLORS (mkConfig ["Blue"; "Red"; "Green"] "Markers color"
                 "Chapters separator" "Help" 100 "Something went wrong"
                 "Not enough memory" "Choose a color"
                 "The file could not be parsed" "Send an .edl file"))
  = Raise IndexError ∧
  change_markers_color_command
    (mkConfig ["Blue"; "Red"; "Green"] "Markers color"
       "Chapters separator" "Help" 100 "Something went wrong"
       "Not enough memory" "Choose a color"
       "The file could not be parsed" "Send an .edl file")
    (message_update 7 (mkMessage 7 (Some "/color") None)) world_example
  = (Returned END,
     after_reply world_example (add_user 7 (db world_example)).2
       (disk world_example) (mkMessage 7 (Some "/color") None)
       (ERROR_MESSAGE
          (mkConfig ["Blue"; "Red"; "Green"] "Markers color"
             "Chapters separator" "Help" 100 "Something went wrong"
             "Not enough memory" "Choose a color"
             "The file could not be parsed" "Send an .edl file"))
       (keyboard_of
          (mkConfig ["Blue"; "Red"; "Green"] "Markers color"
             "Chapters separator" "Help" 100 "Something went wrong"
             "Not enough memory" "Choose a color"
             "The file could not be parsed" "Send an .edl file")
          (default default_row (db world_example !! 7%Z)))).
Proof.
  split; [lia|]. split; [reflexivity|].
  apply color_menu_odd; [lia|reflexivity].
Defined.

(** X13: with an even number of colors the decorated command makes one API
    call, the reply with [SELECT_MARKERS_COLOR_MESSAGE] and the inline
    keyboard of the colors two by two, returns the state
    [CHANGE_MARKERS_COLOR], and changes the table only by adding the user. *)
Theorem color_command_shows_menu
    (config : Config) (w : World) (user_id : Z) (msg : Message) :
  user_id ≠ 0%Z →
  length (M_COLORS config) mod 2 = 0 →
  change_markers_color_command config (message_update user_id msg) w
  = (Returned CHANGE_MARKERS_COLOR,
     after_reply w (add_user user_id (db w)).2 (disk w) msg
       (SELECT_MARKERS_COLOR_MESSAGE config)
       (InlineKeyboardMarkup (pairs (M_COLORS config)))).
Proof.
  intros Hid Hm. unfold change_markers_color_command.
  rewrite decorated_message by done. cbn zeta.
  by rewrite (change_markers_color_even config _ user_id msg
                (default default_row (db w !! user_id)))
    by (done || apply add_user_lookup).
Qed.

Lemma color_command_shows_menu_witness :
  7%Z ≠ 0%Z ∧
  length (M_COLORS config_example) mod 2 = 0 ∧
  change_markers_color_command config_example
    (message_update 7 (mkMessage 7 (Some "/color") None)) world_example
  = (Returned CHANGE_MARKERS_COLOR,
     after_reply world_example (add_user 7 (db world_example)).2
       (disk world_example) (mkMessage 7 (Some "/color") None)
       (SELECT_MARKERS_COLOR_MESSAGE config_example)
       (InlineKeyboardMarkup (pairs (M_COLORS config_example)))).
Proof.
  split; [lia|]. split; [reflexivity|].
  apply color_command_shows_menu; [lia|reflexivity].
Defined.

(** X14: an upload named [*.edl], from a user, with enough free memory,
    is answered by exactly one [reply_text]: the chapters when
    [_format_chapters] returns a text, [EDL_FILE_ERROR_MESSAGE] when it
    returns the empty string, and [ERROR_MESSAGE] with the conversation
    ended when it raises or when the file is not UTF-8. In every case the
    local copy is gone from the disk and the table has only gained the
    user's row, so [_format_chapters] finds its preferences. *)
Theorem upload_edl_file_reply
    (config : Config) (path_suffix : string → string) (w : World)
    (user_id chat : Z) (txt : option string) (name path : string)
    (content : option (list string)) :
  user_id ≠ 0%Z →
  path_suffix name = ".edl" →
  (RAM_THRESHOLD config * 1024 ^ 2 ≤ free_memory w)%Z →
  let file := mkDocument (Some name) path content in
  let msg := mkMessage chat txt (Some file) in
  let db' := (add_user user_id (db w)).2 in
  let row := default default_row (db w !! user_id) in
  upload_file_command config path_suffix (message_update user_id msg) w
  = match parse_outcome user_id file db' with
    | Returned out =>
        (Returned return_None,
         after_reply w db' (disk w ∖ {[path]}) msg
           (if String.eqb out "" then EDL_FILE_ERROR_MESSAGE config else out)
           (keyboard_of config row))
    | Raised _ =>
        (Returned END,
         after_reply w db' (disk w ∖ {[path]}) msg (ERROR_MESSAGE config)
           (keyboard_of config row))
    end.
Proof.
  intros Hid Hsuf Hmem. cbn zeta. unfold upload_file_command.
  rewrite decorated_message by done. cbn zeta.
  rewrite (upload_file_edl config path_suffix _ user_id chat txt name path content
             (default default_row (db w !! user_id)))
    by (done || apply add_user_lookup).
  cbn [Handlers.db Handlers.sent Handlers.disk Handlers.free_memory].
  destruct (parse_outcome _ _ _) as [out|e]; [done|].
  cbn [Handlers.db]. by rewrite add_user_lookup.
Qed.

Lemma upload_edl_file_reply_witness :
  7%Z ≠ 0%Z ∧
  suffix_example "timeline.edl" = ".edl" ∧
  (RAM_THRESHOLD config_example * 1024 ^ 2 ≤ free_memory world_example)%Z ∧
  upload_file_command config_example suffix_example
    (message_update 7
       (mkMessage 7 None
          (Some (mkDocument (Some "timeline.edl") "timeline.edl"
                   (Some ["H1"; "H2"; "H3"; "00:01:23:00";
                          " |C:ResolveColorBlue |M:Intro |D:1"; ""])))))
    world_example
  = match parse_outcome 7
            (mkDocument (Some "timeline.edl") "timeline.edl"
               (Some ["H1"; "H2"; "H3"; "00:01:23:00";
                      " |C:ResolveColorBlue |M:Intro |D:1"; ""]))
            (add_user 7 (db world_example)).2 with
    | Returned out =>
        (Returned return_None,
         after_reply world_example (add_user 7 (db world_example)).2
           (disk world_example ∖ {["timeline.edl"]})
           (mkMessage 7 None
              (Some (mkDocument (Some "timeline.edl") "timeline.edl"
                       (Some ["H1"; "H2"; "H3"; "00:01:23:00";
                              " |C:ResolveColorBlue |M:Intro |D:1"; ""]))))
           (if String.eqb out "" then EDL_FILE_ERROR_MESSAGE config_example else out)
           (keyboard_of config_example
              (default default_row (db world_example !! 7%Z))))
    | Raised _ =>
        (Returned END,
         after_reply world_example (add_user 7 (db world_example)).2
           (disk world_example ∖ {["timeline.edl"]})
           (mkMessage 7 None
              (Some (mkDocument (Some "timeline.edl") "timeline.edl"
                       (Some ["H1"; "H2"; "H3"; "00:01:23:00";
                              " |C:ResolveColorBlue |M:Intro |D:1"; ""]))))
           (ERROR_MESSAGE config_example)
           (keyboard_of config_example
              (default default_row (db world_example !! 7%Z))))
    end.
Proof.
  split; [lia|]. split; [reflexivity|]. split; [by vm_compute|].
  apply (upload_edl_file_reply config_example suffix_example world_example 7 7 None
           "timeline.edl" "timeline.edl");
    [lia|reflexivity|by vm_compute].
Defined.

(** X15: what the user sees of the length of the file. A file of fewer
    than six lines is answered with [EDL_FILE_ERROR_MESSAGE]; a file of six
    lines or more whose length is congruent to 1 modulo 3 is answered with
    the general [ERROR_MESSAGE], and the conversation ends, whatever
    chapters it holds. *)
Theorem upload_reply_by_length
    (config : Config) (path_suffix : string → string) (w : World)
    (user_id chat : Z) (txt : option string) (name path : string)
    (short long : list string) :
  user_id ≠ 0%Z →
  path_suffix name = ".edl" →
  (RAM_THRESHOLD config * 1024 ^ 2 ≤ free_memory w)%Z →
  length short < 6 →
  6 ≤ length long →
  length long mod 3 = 1 →
  let upload lines := mkMessage chat txt (Some (mkDocument (Some name) path (Some lines))) in
  let db' := (add_user user_id (db w)).2 in
  let keyboard := keyboard_of config (default default_row (db w !! user_id)) in
  upload_file_command config path_suffix (message_update user_id (upload short)) w
  = (Returned return_None,
     after_reply w db' (disk w ∖ {[path]}) (upload short)
       (EDL_FILE_ERROR_MESSAGE config) keyboard) ∧
  upload_file_command config path_suffix (message_update user_id (upload long)) w
  = (Returned END,
     after_reply w db' (disk w ∖ {[path]}) (upload long)
       (ERROR_MESSAGE config) keyboard).
Proof.
  intros Hid Hsuf Hmem Hshort Hlong Hmod. cbn zeta.
  pose proof (add_user_lookup (db w) user_id) as Hrow.
  destruct (default default_row (db w !! user_id)) as [c sep] eqn:Hd.
  unfold upload_file_command. rewrite !decorated_message by done. cbn zeta.
  rewrite !(upload_file_edl config path_suffix _ user_id chat txt name path _
              (mkRow c sep)) by done.
  unfold parse_outcome. cbn [download_lines Handlers.db].
  rewrite !(_format_chapters_row _ _ _ _ _ Hrow). cbn [fst].
  rewrite format_with_short, format_with_raises by done.
  cbn [Handlers.db]. rewrite Hrow. done.
Qed.

Lemma upload_reply_by_length_witness :
  7%Z ≠ 0%Z ∧
  suffix_example "timeline.edl" = ".edl" ∧
  (RAM_THRESHOLD config_example * 1024 ^ 2 ≤ free_memory world_example)%Z ∧
  length ["H1"; "H2"; "H3"; "00:01:23:00"; " |C:ResolveColorBlue |M:Intro |D:1"] < 6 ∧
  6 ≤ length ["H1"; "H2"; "H3"; "00:01:23:00";
              " |C:ResolveColorBlue |M:Intro |D:1"; ""; ""] ∧
  length ["H1"; "H2"; "H3"; "00:01:23:00";
          " |C:ResolveColorBlue |M:Intro |D:1"; ""; ""] mod 3 = 1 ∧
  (let upload lines :=
     mkMessage 7 None (Some (mkDocument (Some "timeline.edl") "timeline.edl"
                               (Some lines))) in
   let db' := (add_user 7 (db world_example)).2 in
   let keyboard :=
     keyboard_of config_example (default default_row (db world_example !! 7%Z)) in
   upload_file_command config_example suffix_example
     (message_update 7
        (upload ["H1"; "H2"; "H3"; "00:01:23:00";
                 " |C:ResolveColorBlue |M:Intro |D:1"])) world_example
   = (Returned return_None,
      after_reply world_example db' (disk world_example ∖ {["timeline.edl"]})
        (upload ["H1"; "H2"; "H3"; "00:01:23:00";
                 " |C:ResolveColorBlue |M:Intro |D:1"])
        (EDL_FILE_ERROR_MESSAGE config_example) keyboard) ∧
   upload_file_command config_example suffix_example
     (message_update 7
        (upload ["H1"; "H2"; "H3"; "00:01:23:00";
                 " |C:ResolveColorBlue |M:Intro |D:1"; ""; ""])) world_example
   = (Returned END,
      after_reply world_example db' (disk world_example ∖ {["timeline.edl"]})
        (upload ["H1"; "H2"; "H3"; "00:01:23:00";
                 " |C:ResolveColorBlue |M:Intro |D:1"; ""; ""])
        (ERROR_MESSAGE config_example) keyboard)).
Proof.
  split; [lia|]. split; [reflexivity|]. split; [by vm_compute|].
  split; [simpl; lia|]. split; [simpl; lia|]. split; [reflexivity|].
  apply (upload_reply_by_length config_example suffix_example world_example 7 7 None
           "timeline.edl" "timeline.edl");
    [lia|reflexivity|by vm_compute|simpl; lia|simpl; lia|reflexivity].
Defined.

(** X16: a document with another suffix is not downloaded: the one API
    call is the reply with [UPLOAD_EDL_FILE_MESSAGE], the disk is as it
    was, and the table has only gained the user's row. *)
Theorem upload_other_file_reply
    (config : Config) (path_suffix : string → string) (w : World)
    (user_id chat : Z) (txt : option string) (name : string) (file : Document) :
  user_id ≠ 0%Z →
  file_name file = Some name →
  path_suffix name ≠ ".edl" →
  (RAM_THRESHOLD config * 1024 ^ 2 ≤ free_memory w)%Z →
  let msg := mkMessage chat txt (Some file) in
  upload_file_command config path_suffix (message_update user_id msg) w
  = (Returned return_None,
     after_reply w (add_user user_id (db w)).2 (disk w) msg
       (UPLOAD_EDL_FILE_MESSAGE config)
       (keyboard_of config (default default_row (db w !! user_id)))).
Proof.
  intros Hid Hname Hsuf Hmem. cbn zeta. unfold upload_file_command.
  rewrite decorated_message by done. cbn zeta.
  by rewrite (upload_file_other config path_suffix _ user_id chat txt name file
                (default default_row (db w !! user_id)))
    by (done || apply add_user_lookup).
Qed.

Lemma upload_other_file_reply_witness :
  7%Z ≠ 0%Z ∧
  file_name (mkDocument (Some "notes.txt") "notes.txt" (Some ["hello"]))
    = Some "notes.txt" ∧
  suffix_example "notes.txt" ≠ ".edl" ∧
  (RAM_THRESHOLD config_example * 1024 ^ 2 ≤ free_memory world_example)%Z ∧
  (let msg := mkMessage 7 None
                (Some (mkDocument (Some "notes.txt") "notes.txt" (Some ["hello"]))) in
   upload_file_command config_example suffix_example (message_update 7 msg)
     world_example
   = (Returned return_None,
      after_reply world_example (add_user 7 (db world_example)).2
        (disk world_example) msg (UPLOAD_EDL_FILE_MESSAGE config_example)
        (keyboard_of config_example
           (default default_row (db world_example !! 7%Z))))).
Proof.
  split; [lia|]. split; [reflexivity|]. split; [by vm_compute|].
  split; [by vm_compute|].
  apply (upload_other_file_reply config_example suffix_example world_example 7 7 None
           "notes.txt");
    [lia|reflexivity|by vm_compute|by vm_compute].
Defined.

(** X17: when the free memory is below the threshold nothing of the
    message is looked at: whatever it holds, the one API call is the reply
    with [RAM_FULL_MESSAGE], no file is downloaded, and the handler returns
    [None]. *)
Theorem upload_low_memory_reply
    (config : Config) (path_suffix : string → string) (w : World)
    (user_id : Z) (msg : Message) :
  user_id ≠ 0%Z →
  (free_memory w < RAM_THRESHOLD config * 1024 ^ 2)%Z →
  upload_file_command config path_suffix (message_update user_id msg) w
  = (Returned return_None,
     after_reply w (add_user user_id (db w)).2 (disk w) msg
       (RAM_FULL_MESSAGE config)
       (keyboard_of config (default default_row (db w !! user_id)))).
Proof.
  intros Hid Hmem. unfold upload_file_command.
  rewrite decorated_message by done. cbn zeta.
  by rewrite (upload_file_low config path_suffix _ user_id msg
                (default default_row (db w !! user_id)))
    by (done || apply add_user_lookup).
Qed.

Lemma upload_low_memory_reply_witness :
  7%Z ≠ 0%Z ∧
  (free_memory (mkWorld ∅ [] ∅ 1048576)
   < RAM_THRESHOLD config_example * 1024 ^ 2)%Z ∧
  upload_file_command config_example suffix_example
    (message_update 7 (mkMessage 7 None None)) (mkWorld ∅ [] ∅ 1048576)
  = (Returned return_None,
     after_reply (mkWorld ∅ [] ∅ 1048576)
       (add_user 7 (db (mkWorld ∅ [] ∅ 1048576))).2
       (disk (mkWorld ∅ [] ∅ 1048576)) (mkMessage 7 None None)
       (RAM_FULL_MESSAGE config_example)
       (keyboard_of config_example
          (default default_row (db (mkWorld ∅ [] ∅ 1048576) !! 7%Z)))).
Proof.
  split; [lia|]. split; [by vm_compute|].
  apply upload_low_memory_reply; [lia|by vm_compute].
Defined.

(** X18: an update without a user and without a callback query, such as
    a channel post, cannot be answered: [function_setup] adds nobody, and
    when the handler raises, the reply of [handle_errors] raises
    [AttributeError] in its turn, so the exception leaves the decorator. For
    [upload_file_command] this happens at once: no API call is made and the
    world is unchanged. *)
Theorem update_without_user_raises
    (config : Config) (path_suffix : string → string)
    (func : Update → Handler handler_return) (w : World) (u : Update) :
  callback_query u = None →
  effective_user u = None →
  handle_errors config (function_setup func) u w
  = match func u w with
    | (Returned r, w') => (Returned r, w')
    | (Raised _, w') => (Raised AttributeError, w')
    end ∧
  upload_file_command config path_suffix u w = (Raised AttributeError, w).
Proof.
  intros Hq Hu. split; [by apply decorated_anonymous|].
  unfold upload_file_command. rewrite decorated_anonymous by done.
  by rewrite upload_file_anonymous.
Qed.

Lemma update_without_user_raises_witness :
  callback_query
    (anonymous_update
       (mkMessage 7 None
          (Some (mkDocument (Some "timeline.edl") "timeline.edl" (Some [])))))
    = None ∧
  effective_user
    (anonymous_update
       (mkMessage 7 None
          (Some (mkDocument (Some "timeline.edl") "timeline.edl" (Some [])))))
    = None ∧
  handle_errors config_example
    (function_setup (change_markers_color config_example))
    (anonymous_update
       (mkMessage 7 None
          (Some (mkDocument (Some "timeline.edl") "timeline.edl" (Some [])))))
    world_example
  = match change_markers_color config_example
            (anonymous_update
               (mkMessage 7 None
                  (Some (mkDocument (Some "timeline.edl") "timeline.edl"
                           (Some [])))))
            world_example with
    | (Returned r, w') => (Returned r, w')
    | (Raised _, w') => (Raised AttributeError, w')
    end ∧
  upload_file_command config_example suffix_example
    (anonymous_update
       (mkMessage 7 None
          (Some (mkDocument (Some "timeline.edl") "timeline.edl" (Some [])))))
    world_example
  = (Raised AttributeError, world_example).
Proof.
  split; [reflexivity|]. split; [reflexivity|].
  apply update_without_user_raises; reflexivity.
Defined.
